(** * ipalib/plugins/aci2.py: Directory Server Access Control Instructions

    A shallow embedding of the [aci2] plugin (the request-to-ACI builder,
    the helpers and the five commands create, delete, mod, find, show) and
    the properties of its specification.

    Conventions.
    - Python byte strings are Rocq [string]s; [lower] and [strip] are the
      [str] methods of the C locale (ASCII letters, ASCII whitespace).
    - A Python exception is a value of [exn]; a computation that can raise
      returns a [result].  Commands that touch the directory run in the
      monad [M], which threads the directory and keeps every write made
      before an exception.
    - The class [ACI] comes from [ipalib.aci], which is not among the
      verified files: its attributes are the fields of a record, its
      methods are the operations of the class [ACIClass], and everything
      is proved for an arbitrary implementation of them. *)

From Stdlib Require Import Ascii.
From stdpp Require Import gmap strings list sorting.

Open Scope string_scope.
Open Scope list_scope.

(** ** Exceptions and results *)

Inductive exn : Type :=
  | NotFound
  | DuplicateEntry
  | KeyError (key : string)
  | ValueError
  | SyntaxError.

Inductive result (A : Type) : Type :=
  | Ok (a : A)
  | Raise (e : exn).
Arguments Ok {A} a.
Arguments Raise {A} e.

Global Instance exn_eq_dec : EqDecision exn.
Proof. solve_decision. Defined.

Definition is_ok {A} (r : result A) : bool :=
  match r with Ok _ => true | Raise _ => false end.

Definition result_map {A B} (f : A → B) (r : result A) : result B :=
  match r with Ok a => Ok (f a) | Raise e => Raise e end.

Definition result_bind {A B} (r : result A) (k : A → result B) : result B :=
  match r with Ok a => k a | Raise e => Raise e end.

(** ** Python string methods *)

Module PyStr.

Definition comma : ascii := ","%char.

(** [c.lower()] on one byte. *)
Definition lower_ascii (c : ascii) : ascii :=
  let n := nat_of_ascii c in
  if (65 <=? n)%nat && (n <=? 90)%nat then ascii_of_nat (n + 32) else c.

(** [s.lower()] *)
Fixpoint lower (s : string) : string :=
  match s with
  | EmptyString => EmptyString
  | String c s' => String (lower_ascii c) (lower s')
  end.

(** The bytes removed by [strip()]: space, \t, \n, \v, \f, \r. *)
Definition is_space (c : ascii) : bool :=
  let n := nat_of_ascii c in
  (n =? 32)%nat || ((9 <=? n)%nat && (n <=? 13)%nat).

Fixpoint lstrip (s : string) : string :=
  match s with
  | EmptyString => EmptyString
  | String c s' => if is_space c then lstrip s' else s
  end.

Fixpoint rstrip (s : string) : string :=
  match s with
  | EmptyString => EmptyString
  | String c s' =>
      match rstrip s' with
      | EmptyString => if is_space c then EmptyString else String c EmptyString
      | r => String c r
      end
  end.

(** [s.strip()] *)
Definition strip (s : string) : string := rstrip (lstrip s).

(** [s.split(sep)] for a one-byte separator: never the empty list. *)
Fixpoint split (sep : ascii) (s : string) : list string :=
  match s with
  | EmptyString => [EmptyString]
  | String c s' =>
      if decide (c = sep) then EmptyString :: split sep s'
      else match split sep s' with
           | [] => [String c EmptyString]
           | cur :: rest => String c cur :: rest
           end
  end.

(** [sep.join(l)] *)
Fixpoint join (sep : string) (l : list string) : string :=
  match l with
  | [] => EmptyString
  | [x] => x
  | x :: l' => x +:+ sep +:+ join sep l'
  end.

(** [s.startswith(p)] *)
Fixpoint startswith (p s : string) : bool :=
  match p, s with
  | EmptyString, _ => true
  | String a p', String b s' => bool_decide (a = b) && startswith p' s'
  | String _ _, EmptyString => false
  end.

(** [s.find(t) != -1]: [t] occurs in [s]. *)
Fixpoint contains (s t : string) : bool :=
  startswith t s ||
  match s with
  | EmptyString => false
  | String _ s' => contains s' t
  end.

(** No byte of [s] is [c]. *)
Fixpoint free_of (c : ascii) (s : string) : bool :=
  match s with
  | EmptyString => true
  | String a s' => negb (bool_decide (a = c)) && free_of c s'
  end.

End PyStr.

(** ** Permission normaliser (lines 35-37, 94-101) *)

Definition _valid_permissions_values : list string :=
  ["read"; "write"; "add"; "delete"; "selfwrite"; "all"].

(** The body of the [for p in permissions] loop: one token against the
    list accumulated so far. *)
Definition normalize_step (valid_permissions : list string) (p : string)
  : list string :=
  let p := PyStr.lower (PyStr.strip p) in
  if bool_decide (p ∈ _valid_permissions_values)
     && negb (bool_decide (p ∈ valid_permissions))
  then valid_permissions ++ [p]
  else valid_permissions.

(** The loop, from the empty [valid_permissions]. *)
Definition normalize_tokens (permissions : list string) : list string :=
  fold_left normalize_step permissions [].

Definition _normalize_permissions (permissions : string) : string :=
  let permissions := PyStr.split PyStr.comma permissions in
  PyStr.join "," (normalize_tokens permissions).

(** What the specification says the normaliser does, written directly:
    trim and lower-case every token, keep the tokens of the vocabulary,
    keep the first occurrence of each. *)
Fixpoint keep_first_occurrence (l : list string) : list string :=
  match l with
  | [] => []
  | x :: l' => x :: filter (λ y, y ≠ x) (keep_first_occurrence l')
  end.

Definition clean (p : string) : string := PyStr.lower (PyStr.strip p).

Definition in_vocabulary (p : string) : Prop := p ∈ _valid_permissions_values.

Global Instance in_vocabulary_dec (p : string) : Decision (in_vocabulary p).
Proof. unfold in_vocabulary. apply _. Defined.

Definition normalize_spec (tokens : list string) : list string :=
  keep_first_occurrence (filter in_vocabulary (map clean tokens)).

(** ** The ACI class ([from ipalib.aci import ACI], line 27) *)

(** Modelled from the spec: the target rule of an ACI, the dictionary
    [a.target] of the class [ipalib.aci.ACI].  Its three sub-clauses are
    optional (section 3); the plugin reads the expression of each, and
    subscripting a missing one raises KeyError. *)
Record target_rule : Type := mk_target {
  target_target : option string;             (* target['target']['expression'] *)
  target_targetattr : option (list string);  (* target['targetattr']['expression'] *)
  target_targetfilter : option string        (* target['targetfilter']['expression'] *)
}.

(** Modelled from the spec: the data of the class [ipalib.aci.ACI].  The
    fields are the attributes the plugin reads and assigns: [a.name],
    [a.permissions], [a.bindrule['expression']] (every ACI has a bind
    rule, section 3) and [a.target].  Whatever else an object of the class
    carries is [other_attrs]. *)
Record ACI (X : Type) : Type := mkACI {
  name : string;
  permissions : list string;
  bindrule_expression : string;
  target : target_rule;
  other_attrs : X
}.
Arguments mkACI {X}.
Arguments name {X}.
Arguments permissions {X}.
Arguments bindrule_expression {X}.
Arguments target {X}.
Arguments other_attrs {X}.

(** [a.name = n] and [a.permissions = p] *)
Definition assign_name {X} (n : string) (a : ACI X) : ACI X :=
  mkACI n (permissions a) (bindrule_expression a) (target a) (other_attrs a).

Definition assign_permissions {X} (p : list string) (a : ACI X) : ACI X :=
  mkACI (name a) p (bindrule_expression a) (target a) (other_attrs a).

(** [isequal] is called with an ACI by create and with a raw stored string
    by delete. *)
Inductive isequal_arg (X : Type) : Type :=
  | ArgACI (b : ACI X)
  | ArgStr (s : string).
Arguments ArgACI {X} b.
Arguments ArgStr {X} s.

(** The methods of the class, which the plugin calls and does not define:
    [ACI(None)], [ACI(text)] ([None] when the text raises SyntaxError),
    [str(a)], [a.isequal(b)] and the four setters.  They are parameters:
    every theorem below holds for any implementation of them. *)
Class ACIClass (X : Type) : Type := {
  aci_blank : ACI X;
  aci_parse : string → option (ACI X);
  aci_str : ACI X → string;
  isequal : ACI X → isequal_arg X → bool;
  set_bindrule : string → ACI X → ACI X;
  set_target_attr : list string → ACI X → ACI X;
  set_target_filter : string → ACI X → ACI X;
  set_target : string → ACI X → ACI X
}.

(** The constants of [api.env] that lines 29-33 read, and the DN that the
    task-group plugin gives a new entry: parameters too. *)
Class Env : Type := {
  basedn : string;
  container_user : string;
  container_group : string;
  container_host : string;
  taskgroup_dn : string → string
}.

(** ** The directory and its commands *)

Record group_entry : Type := mk_group {
  group_dn : string;
  group_description : string
}.

(** Modelled from the spec: the state behind the two collaborators of
    section 6.  [base_entry] is the attribute map of the base DN that
    [ldap.get_entry(basedn, ['aci'])] returns and [ldap.update_entry]
    replaces; [taskgroups] and [groups] are what the lookup service
    resolves names in. *)
Record directory : Type := mk_directory {
  base_entry : gmap string (list string);
  taskgroups : gmap string group_entry;
  groups : gmap string group_entry
}.

Definition M (A : Type) : Type := directory → result A * directory.

Global Instance M_ret : MRet M := λ A a w, (Ok a, w).
Global Instance M_bind : MBind M := λ A B k m w,
  match m w with
  | (Ok a, w') => k a w'
  | (Raise e, w') => (Raise e, w')
  end.

Definition raise {A} (e : exn) : M A := λ w, (Raise e, w).

Definition lift {A} (r : result A) : M A := λ w, (r, w).

(** [try: m  except errors.NotFound: h] *)
Definition except_NotFound {A} (m h : M A) : M A := λ w,
  match m w with
  | (Raise NotFound, w') => h w'
  | r => r
  end.

(** Modelled from the spec: [ldap.get_entry(basedn, ['aci'])], of the
    backend [ldap2]. *)
Definition get_entry : M (gmap string (list string)) :=
  λ w, (Ok (base_entry w), w).

(** Modelled from the spec: [ldap.update_entry(dn, entry_attrs)], of the
    backend [ldap2]. *)
Definition update_entry (entry_attrs : gmap string (list string)) : M unit :=
  λ w, (Ok tt, mk_directory entry_attrs (taskgroups w) (groups w)).

(** Modelled from the spec: the lookup of the group and task-group
    service, whose commands live in other plugins: [show(name)] gives the
    DN or fails with NotFound. *)
Definition lookup_group (m : gmap string group_entry) (cn : string)
  : result string :=
  match m !! cn with
  | Some g => Ok (group_dn g)
  | None => Raise NotFound
  end.

(** Modelled from the spec: [api.Command['taskgroup2_show'](cn)], reduced
    to the DN it returns. *)
Definition taskgroup2_show (cn : string) : M string :=
  λ w, (lookup_group (taskgroups w) cn, w).

(** Modelled from the spec: [api.Command['group2_show'](cn)], reduced to
    the DN it returns. *)
Definition group2_show (cn : string) : M string :=
  λ w, (lookup_group (groups w) cn, w).

(** Modelled from the spec: [api.Command['taskgroup2_create'](cn,
    description=...)], which adds the task-group [cn] and returns its
    DN. *)
Definition taskgroup2_create `{Env} (cn description : string) : M string :=
  λ w, (Ok (taskgroup_dn cn),
        mk_directory (base_entry w)
          (<[cn := mk_group (taskgroup_dn cn) description]> (taskgroups w))
          (groups w)).

(** ** Request parameters

    The keyword arguments [kw]: a key is either absent or bound. *)
Record kwargs : Type := mk_kwargs {
  kw_aciname : option string;
  kw_taskgroup : option string;
  kw_permissions : option (list string);
  kw_attrs : option (list string);
  kw_type : option string;
  kw_memberof : option string;
  kw_filter : option string;
  kw_subtree : option string;
  kw_targetgroup : option string
}.

Definition no_kw : kwargs :=
  mk_kwargs None None None None None None None None None.

(** [d[key]]: KeyError when the key is absent. *)
Definition subscript {A} (key : string) (o : option A) : result A :=
  match o with
  | Some v => Ok v
  | None => Raise (KeyError key)
  end.

(** [d.setdefault(key, v)] on one key. *)
Definition setdefault {A} (o : option A) (v : A) : option A :=
  match o with
  | Some x => Some x
  | None => Some v
  end.

Definition dquote : string := String (ascii_of_nat 34) EmptyString.

Section Plugin.

Context {X : Type} `{!ACIClass X} `{!Env}.

(** Lines 29-33. *)
Definition _type_map (type : string) : result string :=
  if decide (type = "user")
  then Ok ("ldap:///uid=*," +:+ container_user +:+ "," +:+ basedn)
  else if decide (type = "group")
  then Ok ("ldap:///cn=*," +:+ container_group +:+ "," +:+ basedn)
  else if decide (type = "host")
  then Ok ("ldap:///cn=*," +:+ container_host +:+ "," +:+ basedn)
  else Raise (KeyError type).

(** [ACI(current)] *)
Definition ACI_init (current : option string) : result (ACI X) :=
  match current with
  | None => Ok aci_blank
  | Some text =>
      match aci_parse text with
      | Some a => Ok a
      | None => Raise SyntaxError
      end
  end.

(** Lines 41-48: the grantee's DN, the task-group being added when the
    lookup fails with NotFound. *)
Definition resolve_taskgroup (aciname : string) (kw : kwargs) : M string :=
  except_NotFound
    (tg ← lift (subscript "taskgroup" (kw_taskgroup kw));
     taskgroup2_show tg)
    (tg ← lift (subscript "taskgroup" (kw_taskgroup kw));
     taskgroup2_create tg aciname).

(** Lines 50-76, for the DN [dn] that lines 41-48 bound. *)
Definition build_aci (current : option string) (aciname : string)
    (kw : kwargs) (dn : string) : M (ACI X) :=
  a ← lift (ACI_init current);
  let a := assign_name aciname a in
  perms ← lift (subscript "permissions" (kw_permissions kw));
  let a := assign_permissions perms a in
  let a := set_bindrule ("groupdn = " +:+ dquote +:+ "ldap:///" +:+ dn +:+ dquote) a in
  let a := match kw_attrs kw with
           | Some attrs => set_target_attr attrs a
           | None => a
           end in
  a ← match kw_memberof kw with
      | Some g => dn ← group2_show g;
                  mret (set_target_filter ("memberOf=" +:+ dn) a)
      | None => mret a
      end;
  let a := match kw_filter kw with
           | Some f => set_target_filter f a
           | None => a
           end in
  a ← match kw_type kw with
      | Some t => target ← lift (_type_map t); mret (set_target target a)
      | None => mret a
      end;
  a ← match kw_targetgroup kw with
      | Some g => dn ← group2_show g;
                  mret (set_target ("ldap:///" +:+ dn) a)
      | None => mret a
      end;
  let a := match kw_subtree kw with
           | Some target =>
               let target := if PyStr.startswith "ldap:///" target then target
                             else "ldap:///" +:+ target in
               set_target target a
           | None => a
           end in
  mret a.

Definition _make_aci (current : option string) (aciname : string)
    (kw : kwargs) : M (ACI X) :=
  dn ← resolve_taskgroup aciname kw;
  build_aci current aciname kw dn.

(** Lines 78-86: a string that raises SyntaxError is passed over. *)
Fixpoint _convert_strings_to_acis (acistrs : list string) : list (ACI X) :=
  match acistrs with
  | [] => []
  | a :: rest =>
      match aci_parse a with
      | Some aci => aci :: _convert_strings_to_acis rest
      | None => _convert_strings_to_acis rest
      end
  end.

(** Lines 88-92. *)
Fixpoint _find_aci_by_name (acis : list (ACI X)) (aciname : string)
  : result (ACI X) :=
  match acis with
  | [] => Raise NotFound
  | a :: rest =>
      if decide (PyStr.lower (name a) = PyStr.lower aciname) then Ok a
      else _find_aci_by_name rest aciname
  end.

(** [l.remove(x)] under the equality test [eqb]: the first equal element
    goes, ValueError when there is none. *)
Fixpoint list_remove {A} (eqb : A → A → bool) (x : A) (l : list A)
  : result (list A) :=
  match l with
  | [] => Raise ValueError
  | y :: l' =>
      if eqb y x then Ok l'
      else result_map (cons y) (list_remove eqb x l')
  end.

Definition str_eqb (s t : string) : bool := bool_decide (s = t).

(** *** aci2_create.execute (lines 158-185)

    The two [assert] statements state what the framework passes in and
    are not part of the model; [kw_aciname] is not read. *)
Definition aci2_create (aciname : string) (kw : kwargs) : M string :=
  newaci ← _make_aci None aciname kw;
  entry_attrs ← get_entry;
  let acis := _convert_strings_to_acis (default [] (entry_attrs !! "aci")) in
  if existsb (λ a, isequal a (ArgACI newaci)) acis then raise DuplicateEntry
  else
    let newaci_str := aci_str newaci in
    l ← lift (subscript "acis" (entry_attrs !! "acis"));
    update_entry (<["acis" := l ++ [newaci_str]]> entry_attrs);;
    mret newaci_str.

(** *** aci2_delete.execute (lines 199-224) *)

(** Lines 215-218: [todo] is what the iteration has still to visit. *)
Fixpoint delete_loop (aci : ACI X) (todo acistrs : list string)
  : result (list string) :=
  match todo with
  | [] => Ok acistrs
  | a :: todo' =>
      if isequal aci (ArgStr a) then list_remove str_eqb a acistrs
      else delete_loop aci todo' acistrs
  end.

Definition aci2_delete (aciname : string) : M bool :=
  entry_attrs ← get_entry;
  let acistrs := default [] (entry_attrs !! "aci") in
  let acis := _convert_strings_to_acis acistrs in
  aci ← lift (_find_aci_by_name acis aciname);
  acistrs ← lift (delete_loop aci acistrs acistrs);
  update_entry (<["aci" := acistrs]> entry_attrs);;
  mret true.

(** *** aci2_mod.execute (lines 240-260)

    [merge_kw] is lines 249-256; the subscript of line 252 is the argument
    of [setdefault], evaluated whether or not [attrs] is already in
    [kw]. *)
Definition merge_kw (aci : ACI X) (kw : kwargs) : result kwargs :=
  let aciname := setdefault (kw_aciname kw) (name aci) in
  let taskgroup := setdefault (kw_taskgroup kw) (bindrule_expression aci) in
  let perms := setdefault (kw_permissions kw) (permissions aci) in
  result_bind (subscript "targetattr" (target_targetattr (target aci)))
    (λ targetattr,
  let attrs := setdefault (kw_attrs kw) targetattr in
  result_bind
    (match kw_type kw, kw_targetgroup kw, kw_subtree kw with
     | None, None, None =>
         result_map Some (subscript "target" (target_target (target aci)))
     | _, _, _ => Ok (kw_subtree kw)
     end)
    (λ subtree,
  result_bind
    (match kw_memberof kw, kw_filter kw with
     | None, None =>
         result_map Some
           (subscript "targetfilter" (target_targetfilter (target aci)))
     | _, _ => Ok (kw_filter kw)
     end)
    (λ filter,
  Ok (mk_kwargs aciname taskgroup perms attrs (kw_type kw) (kw_memberof kw)
        filter subtree (kw_targetgroup kw))))).

(** Modelled from the spec: the command framework behind [api.Command]
    (lines 258 and 260) is not under src/.  Section 4.5 of the spec has
    modify perform delete-by-name followed by create with the merged
    parameters, so the two calls are read as the [execute] methods above,
    run on the directory as the previous step left it.  Line 249 always
    puts [aciname] into [kw] and line 167 asserts that the keywords of
    create hold no [aciname]: create is handed the name as its positional
    argument and the merged keywords without [aciname].  Whether the
    framework accepts a name given twice cannot be read off the source;
    lines 240-257 do not depend on it. *)
Definition without_aciname (kw : kwargs) : kwargs :=
  mk_kwargs None (kw_taskgroup kw) (kw_permissions kw) (kw_attrs kw)
    (kw_type kw) (kw_memberof kw) (kw_filter kw) (kw_subtree kw)
    (kw_targetgroup kw).

Definition aci2_mod (aciname : string) (kw : kwargs) : M string :=
  entry_attrs ← get_entry;
  let acis := _convert_strings_to_acis (default [] (entry_attrs !! "aci")) in
  aci ← lift (_find_aci_by_name acis aciname);
  kw ← lift (merge_kw aci kw);
  aci2_delete aciname;;
  aci2_create aciname (without_aciname kw).

(** *** aci2_show.execute (lines 368-384) *)
Definition aci2_show (aciname : string) : M string :=
  entry_attrs ← get_entry;
  let acis := _convert_strings_to_acis (default [] (entry_attrs !! "aci")) in
  a ← lift (_find_aci_by_name acis aciname);
  mret (aci_str a).

(** *** aci2_find.execute (lines 274-350)

    Every [ACI(a)] of the decoding is a new object, and [in] and
    [remove] on a list of objects compare them by identity: the search
    works on the decoded list with each object tagged by its position. *)
Definition obj : Type := nat * ACI X.

Definition tag_objects (acis : list (ACI X)) : list obj :=
  zip (seq 0 (length acis)) acis.

Definition same_object (a b : obj) : bool := bool_decide (a.1 = b.1).

(** [sorted(l)] on strings. *)
Definition sorted (l : list string) : list string := merge_sort String.le l.

(** [for a in acis: if drop(a): results.remove(a)] *)
Fixpoint remove_each (drop : ACI X → result bool) (acis results : list obj)
  : result (list obj) :=
  match acis with
  | [] => Ok results
  | a :: acis' =>
      result_bind (drop a.2) (λ d,
        if d : bool
        then result_bind (list_remove same_object a results)
                         (remove_each drop acis')
        else remove_each drop acis' results)
  end.

(** Lines 285-287. *)
Definition term_step (term : string) (results : list obj) (a : obj)
  : list obj :=
  if PyStr.contains (PyStr.lower (name a.2)) term
     && negb (existsb (λ r, same_object r a) results)
  then results ++ [a]
  else results.

(** The tests of the five removal passes: [true] when the ACI is to be
    removed from [results]. *)
Definition aciname_drop (aciname : string) (a : ACI X) : result bool :=
  Ok (negb (bool_decide (name a = aciname))).

Definition attrs_drop (attrs : list string) (a : ACI X) : result bool :=
  result_bind (subscript "targetattr" (target_targetattr (target a)))
    (λ targetattr,
       let alist1 := sorted (map PyStr.lower targetattr) in
       let alist2 := sorted (map PyStr.lower attrs) in
       Ok (negb (bool_decide (alist1 = alist2)))).

Definition taskgroup_drop (dn : string) (a : ACI X) : result bool :=
  Ok (negb (bool_decide (bindrule_expression a = "ldap:///" +:+ dn))).

Definition permissions_drop (perms : list string) (a : ACI X)
  : result bool :=
  let alist1 := sorted (permissions a) in
  let alist2 := sorted perms in
  Ok (negb (bool_decide (alist1 = alist2))).

Definition memberof_drop (dn : string) (a : ACI X) : result bool :=
  let memberof_filter := "(memberOf=" +:+ dn +:+ ")" in
  match target_targetfilter (target a) with
  | Some filter => Ok (negb (bool_decide (filter = memberof_filter)))
  | None => Ok true
  end.

(** [try: x = m  except errors.NotFound: pass  else: body(x)] *)
Definition try_else {A B} (m : M A) (skip : B) (body : A → M B) : M B :=
  λ w, match m w with
       | (Ok x, w') => body x w'
       | (Raise NotFound, w') => (Ok skip, w')
       | (Raise e, w') => (Raise e, w')
       end.

(** The two working lists of the search. *)
Definition lists : Type := list obj * list obj.

(** Lines 283-290. *)
Definition term_pass (term : string) (acis : list obj) : lists :=
  let results := [] in
  if decide (term = "") then (acis, acis)
  else
    let term := PyStr.lower term in
    let results := fold_left (term_step term) acis results in
    (results, results).

(** Lines 292-296. *)
Definition aciname_pass (kw : kwargs) (st : lists) : M lists :=
  let '(acis, results) := st in
  match kw_aciname kw with
  | Some aciname =>
      results ← lift (remove_each (aciname_drop aciname) acis results);
      mret (results, results)
  | None => mret (acis, results)
  end.

(** Lines 298-306. *)
Definition attrs_pass (kw : kwargs) (st : lists) : M lists :=
  let '(acis, results) := st in
  match kw_attrs kw with
  | Some attrs =>
      results ← lift (remove_each (attrs_drop attrs) acis results);
      mret (results, results)
  | None => mret (acis, results)
  end.

(** Lines 308-319. *)
Definition taskgroup_pass (kw : kwargs) (st : lists) : M lists :=
  let '(acis, results) := st in
  match kw_taskgroup kw with
  | Some taskgroup =>
      try_else (taskgroup2_show taskgroup) (acis, results) (λ dn,
        results ← lift (remove_each (taskgroup_drop dn) acis results);
        mret (results, results))
  | None => mret (acis, results)
  end.

(** Lines 321-327: [acis = list(results)] sits inside the loop body, so
    it runs only when the loop has something to visit. *)
Definition permissions_pass (kw : kwargs) (st : lists) : M lists :=
  let '(acis, results) := st in
  match kw_permissions kw with
  | Some perms =>
      results ← lift (remove_each (permissions_drop perms) acis results);
      mret (match acis with [] => acis | _ :: _ => results end, results)
  | None => mret (acis, results)
  end.

(** Lines 329-346: [acis = list(results)] is commented out. *)
Definition memberof_pass (kw : kwargs) (st : lists) : M lists :=
  let '(acis, results) := st in
  match kw_memberof kw with
  | Some memberof =>
      try_else (group2_show memberof) (acis, results) (λ dn,
        results ← lift (remove_each (memberof_drop dn) acis results);
        mret (acis, results))
  | None => mret (acis, results)
  end.

Definition find_objects (term : string) (kw : kwargs) : M lists :=
  entry_attrs ← get_entry;
  let acis :=
    tag_objects
      (_convert_strings_to_acis (default [] (entry_attrs !! "aci"))) in
  let st := term_pass term acis in
  st ← aciname_pass kw st;
  st ← attrs_pass kw st;
  st ← taskgroup_pass kw st;
  st ← permissions_pass kw st;
  memberof_pass kw st.

Definition aci2_find (term : string) (kw : kwargs) : M (list string) :=
  '(_, results) ← find_objects term kw;
  mret (map (λ a : obj, aci_str a.2) results).

End Plugin.

(** ** The search as a chain of filters

    Each removal pass of [aci2_find] written as a function from the list of
    candidates to the list of survivors, with no working list that is
    changed while it is visited. *)

Section SearchFilters.

Context {X : Type} `{!ACIClass X} `{!Env}.

(** The raw values of [aci] and the decoded ACIs of a directory. *)
Definition entry_values (w : directory) : list string :=
  default [] (base_entry w !! "aci").

Definition stored_acis (w : directory) : list (ACI X) :=
  _convert_strings_to_acis (entry_values w).

(** The candidates that the test [drop] does not remove; the exception
    of the first candidate whose test raises. *)
Fixpoint keep_where (drop : ACI X → result bool) (l : list (@obj X))
  : result (list (@obj X)) :=
  match l with
  | [] => Ok []
  | a :: l' =>
      result_bind (drop a.2) (λ d,
        result_map (λ r, if d : bool then r else a :: r)
                   (keep_where drop l'))
  end.

Definition term_filter (term : string) (l : list (@obj X)) : list (@obj X) :=
  if decide (term = "") then l
  else filter (λ a : obj,
                 PyStr.contains (PyStr.lower (name a.2)) (PyStr.lower term)
                 = true) l.

Definition aciname_filter (kw : kwargs) (l : list (@obj X))
  : result (list (@obj X)) :=
  match kw_aciname kw with
  | Some aciname => keep_where (aciname_drop aciname) l
  | None => Ok l
  end.

Definition attrs_filter (kw : kwargs) (l : list (@obj X))
  : result (list (@obj X)) :=
  match kw_attrs kw with
  | Some attrs => keep_where (attrs_drop attrs) l
  | None => Ok l
  end.

(** A reference that resolves filters with the DN, one that fails with
    NotFound leaves the list alone. *)
Definition resolved_filter (r : result string)
    (drop : string → ACI X → result bool) (l : list (@obj X))
  : result (list (@obj X)) :=
  match r with
  | Ok dn => keep_where (drop dn) l
  | Raise NotFound => Ok l
  | Raise e => Raise e
  end.

Definition taskgroup_filter (kw : kwargs) (w : directory) (l : list (@obj X))
  : result (list (@obj X)) :=
  match kw_taskgroup kw with
  | Some taskgroup =>
      resolved_filter (lookup_group (taskgroups w) taskgroup) taskgroup_drop l
  | None => Ok l
  end.

Definition permissions_filter (kw : kwargs) (l : list (@obj X))
  : result (list (@obj X)) :=
  match kw_permissions kw with
  | Some perms => keep_where (permissions_drop perms) l
  | None => Ok l
  end.

Definition memberof_filter (kw : kwargs) (w : directory) (l : list (@obj X))
  : result (list (@obj X)) :=
  match kw_memberof kw with
  | Some memberof =>
      resolved_filter (lookup_group (groups w) memberof) memberof_drop l
  | None => Ok l
  end.

Definition find_filters (term : string) (kw : kwargs) (w : directory)
  : result (list (@obj X)) :=
  result_bind
    (aciname_filter kw (term_filter term (tag_objects (stored_acis w))))
    (λ l, result_bind (attrs_filter kw l)
    (λ l, result_bind (taskgroup_filter kw w l)
    (λ l, result_bind (permissions_filter kw l)
    (λ l, memberof_filter kw w l)))).

(** Two directories that the commands cannot tell apart when they read:
    the same decoded ACIs, the same value under ['acis'], the same
    groups. *)
Definition same_reading (w w' : directory) : Prop :=
  stored_acis w = stored_acis w'
  ∧ base_entry w !! "acis" = base_entry w' !! "acis"
  ∧ taskgroups w = taskgroups w'
  ∧ groups w = groups w'.

(** The working lists at the start of a pass: [acis] is a copy of
    [results], and no object occurs twice. *)
Definition lists_ok (st : @lists X) : Prop :=
  st.1 = st.2 ∧ NoDup (st.2.*1).

(** A pass that never raises and keeps the candidates that pass a test
    of their own. *)
Definition plain_filter (F : list (@obj X) → result (list (@obj X))) : Prop :=
  ∃ d : @obj X → bool, ∀ l, F l = Ok (filter (λ a, d a = true) l).

(** The text of the survivors. *)
Definition texts (l : list (@obj X)) : list string :=
  map (λ a : obj, aci_str a.2) l.

End SearchFilters.

(** ** Requests with one criterion changed *)


Definition with_taskgroup (v : option string) (kw : kwargs) : kwargs :=
  mk_kwargs (kw_aciname kw) v (kw_permissions kw) (kw_attrs kw)
    (kw_type kw) (kw_memberof kw) (kw_filter kw) (kw_subtree kw)
    (kw_targetgroup kw).

Definition with_permissions (v : option (list string)) (kw : kwargs) : kwargs :=
  mk_kwargs (kw_aciname kw) (kw_taskgroup kw) v (kw_attrs kw)
    (kw_type kw) (kw_memberof kw) (kw_filter kw) (kw_subtree kw)
    (kw_targetgroup kw).

Definition with_memberof (v : option string) (kw : kwargs) : kwargs :=
  mk_kwargs (kw_aciname kw) (kw_taskgroup kw) (kw_permissions kw) (kw_attrs kw)
    (kw_type kw) v (kw_filter kw) (kw_subtree kw) (kw_targetgroup kw).

(** The directory with another value of the base entry's [aci]. *)
Definition with_aci_values (acistrs : list string) (w : directory) : directory :=
  mk_directory (<["aci" := acistrs]> (base_entry w)) (taskgroups w) (groups w).

(** The directory with one more task-group. *)
Definition with_taskgroup_entry `{Env} (cn description : string) (w : directory)
  : directory :=
  mk_directory (base_entry w)
    (<[cn := mk_group (taskgroup_dn cn) description]> (taskgroups w))
    (groups w).

(** The list without its first element that satisfies [P]. *)
Fixpoint remove_first {A} (P : A → bool) (l : list A) : list A :=
  match l with
  | [] => []
  | x :: l' => if P x then l' else x :: remove_first P l'
  end.

(** ** An implementation of the class for the examples

    ACIs with no further attributes, setters that replace their
    sub-clause, a text form, and a parser that knows the text of five
    ACIs.  The examples run the commands on it; no theorem about the
    plugin depends on it. *)

Module Fixture.

Definition quoted (s : string) : string := dquote +:+ s +:+ dquote.

(** The text between the first double quote and the last byte. *)
Fixpoint after_quote (s : string) : string :=
  match s with
  | EmptyString => EmptyString
  | String c s' => if decide (c = ascii_of_nat 34) then s' else after_quote s'
  end.

Fixpoint drop_last (s : string) : string :=
  match s with
  | EmptyString => EmptyString
  | String c EmptyString => EmptyString
  | String c s' => String c (drop_last s')
  end.

Definition with_target (t : target_rule) (a : ACI unit) : ACI unit :=
  mkACI (name a) (permissions a) (bindrule_expression a) t tt.

Definition fx_set_bindrule (s : string) (a : ACI unit) : ACI unit :=
  mkACI (name a) (permissions a) (drop_last (after_quote s)) (target a) tt.

Definition fx_set_target_attr (l : list string) (a : ACI unit) : ACI unit :=
  with_target (mk_target (target_target (target a)) (Some l)
                 (target_targetfilter (target a))) a.

Definition fx_set_target_filter (f : string) (a : ACI unit) : ACI unit :=
  let f := if PyStr.startswith "(" f then f else "(" +:+ f +:+ ")" in
  with_target (mk_target (target_target (target a))
                 (target_targetattr (target a)) (Some f)) a.

Definition fx_set_target (t : string) (a : ACI unit) : ACI unit :=
  with_target (mk_target (Some t) (target_targetattr (target a))
                 (target_targetfilter (target a))) a.

Definition fx_blank : ACI unit :=
  mkACI "" ["write"] "" (mk_target None None None) tt.

Definition clause (key : string) (o : option string) : string :=
  match o with
  | Some e => "(" +:+ key +:+ " = " +:+ quoted e +:+ ")"
  | None => ""
  end.

Definition fx_str (a : ACI unit) : string :=
  clause "target" (target_target (target a))
  +:+ clause "targetattr" (PyStr.join " || " <$> target_targetattr (target a))
  +:+ clause "targetfilter" (target_targetfilter (target a))
  +:+ "(version 3.0;acl " +:+ quoted (name a) +:+ ";allow ("
  +:+ PyStr.join "," (permissions a) +:+ ") groupdn = "
  +:+ quoted (bindrule_expression a) +:+ ";)".

Definition editors_dn : string := "cn=editors,cn=taskgroups,dc=example".
Definition staff_dn : string := "cn=staff,cn=groups,dc=example".

(** An ACI with a target and an attribute list and no filter. *)
Definition aci_title : ACI unit :=
  mkACI "Edit Title" ["write"] ("ldap:///" +:+ editors_dn)
    (mk_target (Some "ldap:///uid=*,cn=users,dc=example") (Some ["title"])
       None) tt.

Definition aci_rw : ACI unit :=
  mkACI "a1" ["read"; "write"] ("ldap:///" +:+ editors_dn)
    (mk_target None (Some ["cn"; "sn"]) None) tt.

Definition aci_rwa : ACI unit :=
  mkACI "a2" ["read"; "write"; "add"] "ldap:///cn=g2,dc=example"
    (mk_target None (Some ["cn"]) None) tt.

Definition aci_staff : ACI unit :=
  mkACI "staff phones" ["write"] ("ldap:///" +:+ editors_dn)
    (mk_target None (Some ["telephonenumber"])
       (Some ("(memberOf=" +:+ staff_dn +:+ ")"))) tt.

(** An ACI with its three target sub-clauses. *)
Definition aci_full : ACI unit :=
  mkACI "full" ["write"] ("ldap:///" +:+ editors_dn)
    (mk_target (Some "ldap:///dc=example") (Some ["cn"])
       (Some "(ou=Engineering)")) tt.

Definition known_acis : list (ACI unit) :=
  [aci_title; aci_rw; aci_rwa; aci_staff; aci_full].

Definition fx_parse (text : string) : option (ACI unit) :=
  head (filter (λ a, fx_str a = text) known_acis).

Definition same_rule (a b : ACI unit) : bool :=
  bool_decide (PyStr.lower (name a) = PyStr.lower (name b))
  && bool_decide (merge_sort String.le (permissions a)
                  = merge_sort String.le (permissions b))
  && bool_decide (bindrule_expression a = bindrule_expression b)
  && bool_decide (target_target (target a) = target_target (target b))
  && bool_decide (target_targetattr (target a) = target_targetattr (target b))
  && bool_decide (target_targetfilter (target a)
                  = target_targetfilter (target b)).

Definition fx_isequal (a : ACI unit) (b : isequal_arg unit) : bool :=
  match b with
  | ArgACI b => same_rule a b
  | ArgStr s =>
      match fx_parse s with
      | Some b => same_rule a b
      | None => false
      end
  end.

Global Instance fx_class : ACIClass unit := {|
  aci_blank := fx_blank;
  aci_parse := fx_parse;
  aci_str := fx_str;
  isequal := fx_isequal;
  set_bindrule := fx_set_bindrule;
  set_target_attr := fx_set_target_attr;
  set_target_filter := fx_set_target_filter;
  set_target := fx_set_target
|}.

Global Instance fx_env : Env := {|
  basedn := "dc=example";
  container_user := "cn=users";
  container_group := "cn=groups";
  container_host := "cn=computers";
  taskgroup_dn := λ cn, "cn=" +:+ cn +:+ ",cn=taskgroups,dc=example"
|}.

(** A directory: five ACIs and one string that is no ACI; the
    task-group editors and the group staff. *)
Definition stored : list string :=
  [fx_str aci_title; "not an aci"; fx_str aci_rw; fx_str aci_rwa;
   fx_str aci_staff; fx_str aci_full].

Definition dir : directory :=
  mk_directory {["aci" := stored]}
    {["editors" := mk_group editors_dn "Editors"]}
    {["staff" := mk_group staff_dn "Staff"]}.

(** The same directory with nothing stored. *)
Definition empty_dir : directory :=
  mk_directory {["aci" := []]} (taskgroups dir) (groups dir).

(** Requests. *)
Definition only_permissions (perms : list string) : kwargs :=
  with_permissions (Some perms) no_kw.

Definition grant (taskgroup : string) (perms : list string) : kwargs :=
  with_taskgroup (Some taskgroup) (with_permissions (Some perms) no_kw).

(** A second class for the same texts: its [isequal] compares the fields
    of two ACI objects, as [same_rule] does, and finds no raw string equal
    to an ACI. *)
Definition objects_isequal (a : ACI unit) (b : isequal_arg unit) : bool :=
  match b with
  | ArgACI b => same_rule a b
  | ArgStr _ => false
  end.

Definition objects_class : ACIClass unit := {|
  aci_blank := fx_blank;
  aci_parse := fx_parse;
  aci_str := fx_str;
  isequal := objects_isequal;
  set_bindrule := fx_set_bindrule;
  set_target_attr := fx_set_target_attr;
  set_target_filter := fx_set_target_filter;
  set_target := fx_set_target
|}.

(** A request with a type and a subtree. *)
Definition subtree_request : kwargs :=
  mk_kwargs None (Some "editors") (Some ["read"]) None (Some "user") None None
    (Some "ou=people,dc=example") None.

End Fixture.

(** ** The criteria of the search, one ACI at a time

    What each pass of [aci2_find] asks of an ACI, as a boolean test on the
    ACI alone. *)

Section Criteria.

Context {X : Type}.

(** Lines 283-290: no term, or the term inside the name, both in lower
    case. *)
Definition term_match (term : string) (a : ACI X) : bool :=
  bool_decide (term = "")
  || PyStr.contains (PyStr.lower (name a)) (PyStr.lower term).

(** Line 294. *)
Definition aciname_match (kw : kwargs) (a : ACI X) : bool :=
  match kw_aciname kw with
  | Some aciname => bool_decide (name a = aciname)
  | None => true
  end.

(** Lines 300-304, for an ACI that has a [targetattr] sub-clause. *)
Definition attrs_match (kw : kwargs) (a : ACI X) : bool :=
  match kw_attrs kw, target_targetattr (target a) with
  | Some attrs, Some targetattr =>
      bool_decide (sorted (map PyStr.lower targetattr)
                   = sorted (map PyStr.lower attrs))
  | Some _, None => false
  | None, _ => true
  end.

(** Lines 308-319. *)
Definition taskgroup_match (kw : kwargs) (w : directory) (a : ACI X) : bool :=
  match kw_taskgroup kw with
  | Some taskgroup =>
      match taskgroups w !! taskgroup with
      | Some g => bool_decide (bindrule_expression a = "ldap:///" +:+ group_dn g)
      | None => true
      end
  | None => true
  end.

(** Lines 321-327. *)
Definition permissions_match (kw : kwargs) (a : ACI X) : bool :=
  match kw_permissions kw with
  | Some perms => bool_decide (sorted (permissions a) = sorted perms)
  | None => true
  end.

(** Lines 329-346. *)
Definition memberof_match (kw : kwargs) (w : directory) (a : ACI X) : bool :=
  match kw_memberof kw with
  | Some memberof =>
      match groups w !! memberof with
      | Some g =>
          bool_decide (target_targetfilter (target a)
                       = Some ("(memberOf=" +:+ group_dn g +:+ ")"))
      | None => true
      end
  | None => true
  end.

Definition find_match (term : string) (kw : kwargs) (w : directory)
    (a : ACI X) : bool :=
  term_match term a && aciname_match kw a && attrs_match kw a
  && taskgroup_match kw w a && permissions_match kw a && memberof_match kw w a.

(** The subscript of line 301 raises KeyError for the ACI. *)
Definition lacks_targetattr_test (a : ACI X) : bool :=
  negb (bool_decide (is_Some (target_targetattr (target a)))).

(** The attrs pass meets an ACI without [targetattr]: one that the term
    and aciname passes have kept. *)
Definition attrs_pass_raises (term : string) (kw : kwargs)
    (acis : list (ACI X)) : bool :=
  match kw_attrs kw with
  | Some _ =>
      existsb (λ a, term_match term a && aciname_match kw a
                    && lacks_targetattr_test a)
        acis
  | None => false
  end.

(** The candidates whose ACI passes a test. *)
Definition keep_matching (f : ACI X → bool) (L : list (@obj X))
  : list (@obj X) :=
  filter (λ o : obj, f o.2 = true) L.

End Criteria.

(** Line 72-73: the target of a subtree. *)
Definition subtree_target (subtree : string) : string :=
  if PyStr.startswith "ldap:///" subtree then subtree
  else "ldap:///" +:+ subtree.

(** * Properties *)

(** ** String methods *)

Section PyStrFacts.

Import PyStr.

Lemma split_free (c : ascii) (s : string) :
  free_of c s = true → split c s = [s].
Proof.
  induction s as [|a s IH]; simpl; [done|].
  intros [Ha Hs]%andb_prop.
  case_decide as Hc.
  - subst a. by rewrite bool_decide_eq_true_2 in Ha.
  - by rewrite IH.
Qed.

Lemma split_app_sep (c : ascii) (x s : string) :
  free_of c x = true → split c (x +:+ String c s) = x :: split c s.
Proof.
  induction x as [|a x IH]; simpl.
  - intros _. by rewrite decide_True.
  - intros [Ha Hx]%andb_prop.
    case_decide as Hc.
    + subst a. by rewrite bool_decide_eq_true_2 in Ha.
    + by rewrite IH.
Qed.

(** Splitting what [join] glued gives the pieces back, as long as no
    piece holds the separator and there is at least one piece. *)
Lemma split_join (c : ascii) (l : list string) :
  l ≠ [] →
  Forall (λ x, free_of c x = true) l →
  split c (join (String c EmptyString) l) = l.
Proof.
  induction l as [|x l IH]; [done|].
  intros _ Hl. apply Forall_cons in Hl as [Hx Hl].
  destruct l as [|y l].
  - simpl. by apply split_free.
  - change (join (String c "") (x :: y :: l))
      with (x +:+ String c (join (String c "") (y :: l))).
    rewrite split_app_sep by done.
    by rewrite IH.
Qed.

End PyStrFacts.

(** ** Lists *)

Lemma filter_all {A} (P : A → Prop) `{!∀ x, Decision (P x)} (l : list A) :
  (∀ x, x ∈ l → P x) → filter P l = l.
Proof.
  induction l as [|x l IH]; intros Hall; [done|].
  rewrite filter_cons_True by (apply Hall; left).
  rewrite IH; [done|]. intros y Hy. apply Hall. by right.
Qed.


(** ** Permission normaliser *)

Section Normalize.

Lemma vocabulary_cases (p : string) :
  in_vocabulary p →
  p = "read" ∨ p = "write" ∨ p = "add" ∨ p = "delete" ∨ p = "selfwrite"
  ∨ p = "all".
Proof.
  unfold in_vocabulary, _valid_permissions_values.
  rewrite !elem_of_cons, elem_of_nil. tauto.
Qed.

Lemma clean_vocabulary (p : string) : in_vocabulary p → clean p = p.
Proof.
  intros Hp. destruct (vocabulary_cases p Hp) as [->|[->|[->|[->|[->| ->]]]]];
    reflexivity.
Qed.

Lemma vocabulary_free_of_comma (p : string) :
  in_vocabulary p → PyStr.free_of PyStr.comma p = true.
Proof.
  intros Hp. destruct (vocabulary_cases p Hp) as [->|[->|[->|[->|[->| ->]]]]];
    reflexivity.
Qed.

Lemma normalize_step_cases (acc : list string) (p : string) :
  normalize_step acc p =
    if decide (in_vocabulary (clean p) ∧ clean p ∉ acc)
    then acc ++ [clean p] else acc.
Proof.
  unfold normalize_step, in_vocabulary, clean.
  repeat case_bool_decide; simpl; case_decide; tauto || done.
Qed.

(** The loop against the direct definition, for any accumulated list. *)
Lemma normalize_loop_spec (tokens acc : list string) :
  fold_left normalize_step tokens acc =
    acc ++ filter (λ y, y ∉ acc)
             (keep_first_occurrence
                (filter in_vocabulary (map clean tokens))).
Proof.
  revert acc. induction tokens as [|t tokens IH]; intros acc; simpl.
  - by rewrite app_nil_r.
  - rewrite IH, normalize_step_cases.
    destruct (decide (in_vocabulary (clean t))) as [Hv|Hv].
    + rewrite (filter_cons_True _ _ _ Hv). simpl.
      set (L := keep_first_occurrence _).
      destruct (decide (clean t ∈ acc)) as [Hin|Hin].
      * rewrite decide_False by tauto.
        rewrite filter_cons_False by tauto.
        rewrite list_filter_filter. f_equal.
        apply list_filter_iff. intros y.
        destruct (decide (y = clean t)) as [->|]; tauto.
      * rewrite decide_True by tauto.
        rewrite filter_cons_True by done.
        rewrite <- app_assoc. simpl. do 2 f_equal.
        rewrite list_filter_filter.
        apply list_filter_iff. intros y.
        rewrite not_elem_of_app, list_elem_of_singleton. tauto.
    + rewrite decide_False by tauto.
      by rewrite (filter_cons_False _ _ _ Hv).
Qed.

Lemma normalize_tokens_spec (tokens : list string) :
  normalize_tokens tokens = normalize_spec tokens.
Proof.
  unfold normalize_tokens, normalize_spec.
  rewrite normalize_loop_spec. simpl.
  apply filter_all. intros; by apply not_elem_of_nil.
Qed.

Lemma keep_first_occurrence_subset (l : list string) (x : string) :
  x ∈ keep_first_occurrence l → x ∈ l.
Proof.
  induction l as [|y l IH]; simpl; [done|].
  rewrite !elem_of_cons, list_elem_of_filter.
  intros [->|[_ Hx]]; [by left|right; by apply IH].
Qed.

Lemma keep_first_occurrence_NoDup (l : list string) :
  NoDup (keep_first_occurrence l).
Proof.
  induction l as [|y l IH]; simpl; constructor.
  - rewrite list_elem_of_filter. tauto.
  - by apply NoDup_filter.
Qed.

Lemma keep_first_occurrence_id (l : list string) :
  NoDup l → keep_first_occurrence l = l.
Proof.
  induction 1 as [|x l Hx Hl IH]; simpl; [done|].
  rewrite IH. f_equal. apply filter_all.
  intros y Hy ->. done.
Qed.

Lemma normalize_tokens_vocabulary (tokens : list string) :
  Forall in_vocabulary (normalize_tokens tokens).
Proof.
  rewrite normalize_tokens_spec. apply Forall_forall. intros x Hx.
  apply keep_first_occurrence_subset, list_elem_of_filter in Hx. tauto.
Qed.

Lemma normalize_tokens_NoDup (tokens : list string) :
  NoDup (normalize_tokens tokens).
Proof. rewrite normalize_tokens_spec. apply keep_first_occurrence_NoDup. Qed.

(** A duplicate-free list of vocabulary tokens is left as it is. *)
Lemma normalize_tokens_fixed (l : list string) :
  Forall in_vocabulary l → NoDup l → normalize_tokens l = l.
Proof.
  intros Hv Hn. rewrite normalize_tokens_spec. unfold normalize_spec.
  assert (map clean l = l) as ->.
  { clear Hn. induction Hv as [|x l Hx _ IH]; simpl; [done|].
    by rewrite IH, clean_vocabulary. }
  rewrite filter_all; [by apply keep_first_occurrence_id|].
  by apply Forall_forall.
Qed.

Lemma normalize_tokens_idempotent (tokens : list string) :
  normalize_tokens (normalize_tokens tokens) = normalize_tokens tokens.
Proof.
  apply normalize_tokens_fixed;
    [apply normalize_tokens_vocabulary | apply normalize_tokens_NoDup].
Qed.

Lemma _normalize_permissions_idempotent (permissions : string) :
  _normalize_permissions (_normalize_permissions permissions) =
  _normalize_permissions permissions.
Proof.
  unfold _normalize_permissions.
  set (l := normalize_tokens (PyStr.split PyStr.comma permissions)).
  assert (Forall in_vocabulary l) as Hv by apply normalize_tokens_vocabulary.
  assert (NoDup l) as Hn by apply normalize_tokens_NoDup.
  destruct (decide (l = [])) as [->|Hne]; [reflexivity|].
  assert (PyStr.split PyStr.comma (PyStr.join "," l) = l) as ->.
  { apply (split_join PyStr.comma l Hne).
    eapply Forall_impl; [exact Hv|]. apply vocabulary_free_of_comma. }
  by rewrite normalize_tokens_fixed.
Qed.

Lemma keep_first_occurrence_elem_of (l : list string) (x : string) :
  x ∈ keep_first_occurrence l ↔ x ∈ l.
Proof.
  split; [apply keep_first_occurrence_subset|].
  induction l as [|y l IH]; simpl; [done|].
  rewrite !elem_of_cons, list_elem_of_filter.
  intros [->|Hx]; [by left|].
  destruct (decide (x = y)) as [->|Hne]; [by left|right; auto].
Qed.

Lemma normalize_tokens_elem_of (tokens : list string) (p : string) :
  p ∈ normalize_tokens tokens
  ↔ in_vocabulary p ∧ ∃ t, t ∈ tokens ∧ clean t = p.
Proof.
  rewrite normalize_tokens_spec. unfold normalize_spec.
  rewrite keep_first_occurrence_elem_of, list_elem_of_filter.
  split.
  - intros [Hv Hin]. split; [done|].
    apply list_elem_of_In, in_map_iff in Hin as (t & Ht & Hin).
    exists t. split; [by apply list_elem_of_In|done].
  - intros (Hv & t & Ht & Hc). split; [done|].
    apply list_elem_of_In, in_map_iff. exists t.
    split; [done|by apply list_elem_of_In].
Qed.

(** C6: the normaliser applied to its own result gives that result, on
    the text it returns and on the token list it builds; the token list
    is made by trimming and lower-casing every token, keeping those of
    the vocabulary, and keeping the first occurrence of each; and
    "read, READ ,write" gives the tokens read, write, returned as the
    text "read,write". *)
Theorem normalize_permissions_idempotent_canonical :
  (∀ permissions,
     _normalize_permissions (_normalize_permissions permissions)
     = _normalize_permissions permissions)
  ∧ (∀ tokens,
       normalize_tokens (normalize_tokens tokens) = normalize_tokens tokens)
  ∧ (∀ permissions,
       _normalize_permissions permissions
       = PyStr.join "," (normalize_spec (PyStr.split PyStr.comma permissions)))
  ∧ (∀ tokens, normalize_tokens tokens = normalize_spec tokens)
  ∧ (∀ tokens p,
       p ∈ normalize_tokens tokens
       ↔ p ∈ _valid_permissions_values
         ∧ ∃ t, t ∈ tokens ∧ PyStr.lower (PyStr.strip t) = p)
  ∧ (∀ tokens, NoDup (normalize_tokens tokens))
  ∧ normalize_tokens (PyStr.split PyStr.comma "read, READ ,write")
    = ["read"; "write"]
  ∧ _normalize_permissions "read, READ ,write" = "read,write".
Proof.
  split_and!.
  - apply _normalize_permissions_idempotent.
  - apply normalize_tokens_idempotent.
  - intros permissions. unfold _normalize_permissions.
    by rewrite normalize_tokens_spec.
  - apply normalize_tokens_spec.
  - apply normalize_tokens_elem_of.
  - apply normalize_tokens_NoDup.
  - reflexivity.
  - reflexivity.
Qed.

End Normalize.

(** ** The removal passes of the search *)

Section RemovalPasses.

Context {X : Type} `{!ACIClass X} `{!Env}.

Implicit Types (a : @obj X) (acis results pre l : list (@obj X)).

Lemma tag_objects_fst (l : list (ACI X)) :
  (tag_objects l).*1 = seq 0 (length l).
Proof. unfold tag_objects. apply fst_zip. by rewrite length_seq. Qed.

Lemma tag_objects_snd (l : list (ACI X)) : (tag_objects l).*2 = l.
Proof. unfold tag_objects. apply snd_zip. by rewrite length_seq. Qed.

Lemma tag_objects_NoDup (l : list (ACI X)) : NoDup (tag_objects l).*1.
Proof. rewrite tag_objects_fst. apply NoDup_seq. Qed.

(** [remove] finds the object itself when nothing before it is the same
    object. *)
Lemma list_remove_here pre a l :
  a.1 ∉ pre.*1 →
  list_remove same_object a (pre ++ a :: l) = Ok (pre ++ l).
Proof.
  induction pre as [|b pre IH]; simpl; intros Hpre.
  - unfold same_object. by rewrite bool_decide_eq_true_2.
  - apply not_elem_of_cons in Hpre as [Hb Hpre].
    unfold same_object at 1. rewrite bool_decide_eq_false_2 by congruence.
    by rewrite IH.
Qed.

(** A removal pass over a copy of the list it removes from is the
    filter, whatever has already been kept in front. *)
Lemma remove_each_keep_where (drop : ACI X → result bool) acis pre :
  NoDup ((pre ++ acis).*1) →
  remove_each drop acis (pre ++ acis) =
    result_map (app pre) (keep_where drop acis).
Proof.
  revert pre. induction acis as [|a acis IH]; intros pre Hnd; simpl.
  - by rewrite app_nil_r.
  - destruct (drop a.2) as [[]|e]; simpl; [| |done].
    + rewrite list_remove_here.
      * simpl. rewrite IH; [by destruct (keep_where drop acis)|].
        rewrite fmap_app in *. rewrite fmap_cons in Hnd.
        apply NoDup_app in Hnd as (Hp & Hd & Ha).
        apply NoDup_cons in Ha as [_ Ha].
        apply NoDup_app. split_and!; [done| |done].
        intros x Hx Hx'. apply (Hd x Hx). by right.
      * rewrite fmap_app, fmap_cons in Hnd.
        apply NoDup_app in Hnd as (_ & Hd & _).
        intros Hin. apply (Hd _ Hin). by left.
    + replace (pre ++ a :: acis) with ((pre ++ [a]) ++ acis)
        by (by rewrite <- app_assoc).
      rewrite IH by (by rewrite <- app_assoc).
      destruct (keep_where drop acis); simpl; [|done].
      by rewrite <- app_assoc.
Qed.

Lemma remove_each_copy (drop : ACI X → result bool) acis :
  NoDup (acis.*1) → remove_each drop acis acis = keep_where drop acis.
Proof.
  intros Hnd. rewrite <- (app_nil_l acis) at 2.
  rewrite remove_each_keep_where by done.
  by destruct (keep_where drop acis).
Qed.

Lemma keep_where_sublist (drop : ACI X → result bool) l r :
  keep_where drop l = Ok r → sublist r l.
Proof.
  revert r. induction l as [|a l IH]; simpl; intros r.
  - intros [= <-]. constructor.
  - destruct (drop a.2) as [d|]; simpl; [|done].
    destruct (keep_where drop l) as [r'|]; simpl; [|done].
    intros [= <-]. destruct d; [apply sublist_cons|apply sublist_skip]; auto.
Qed.

Lemma keep_where_NoDup (drop : ACI X → result bool) l r :
  keep_where drop l = Ok r → NoDup (l.*1) → NoDup (r.*1).
Proof.
  intros Hk Hnd. eapply sublist_NoDup; [exact Hnd|].
  apply fmap_sublist. by eapply keep_where_sublist.
Qed.

(** A test that never raises keeps exactly the ACIs it does not drop. *)
Lemma keep_where_total (d : ACI X → bool) l :
  keep_where (λ b, Ok (d b)) l = Ok (filter (λ a : obj, d a.2 = false) l).
Proof.
  induction l as [|a l IH]; simpl; [done|].
  rewrite IH. simpl. destruct (d a.2) eqn:Hd.
  - by rewrite filter_cons_False by congruence.
  - by rewrite filter_cons_True by done.
Qed.

Lemma keep_where_drop_ext (d1 d2 : ACI X → result bool) l :
  (∀ b, d1 b = d2 b) → keep_where d1 l = keep_where d2 l.
Proof.
  intros Hd. induction l as [|a l IH]; simpl; [done|]. by rewrite Hd, IH.
Qed.

(** The free-text pass appends every match: no object is in [results]
    before its own turn. *)
Lemma term_loop_filter (term : string) acis results :
  NoDup ((results ++ acis).*1) →
  fold_left (term_step term) acis results =
    results ++ filter (λ a : obj,
                 PyStr.contains (PyStr.lower (name a.2)) term = true) acis.
Proof.
  revert results. induction acis as [|a acis IH]; intros results Hnd; simpl.
  - by rewrite app_nil_r.
  - assert (existsb (λ r : obj, same_object r a) results = false) as Hfresh.
    { apply not_true_is_false. intros (b & Hb & Hsame)%existsb_exists.
      unfold same_object in Hsame. apply bool_decide_eq_true_1 in Hsame.
      rewrite fmap_app, fmap_cons in Hnd.
      apply NoDup_app in Hnd as (_ & Hd & _).
      apply (Hd b.1).
      - apply list_elem_of_fmap. exists b. split; [done|].
        by apply list_elem_of_In.
      - rewrite Hsame. by left. }
    unfold term_step at 2. rewrite Hfresh, andb_true_r.
    destruct (PyStr.contains _ term) eqn:Hc.
    + rewrite filter_cons_True by done.
      rewrite IH by (by rewrite <- app_assoc).
      by rewrite <- app_assoc.
    + rewrite filter_cons_False by congruence.
      apply IH.
      rewrite fmap_app, fmap_cons in Hnd. rewrite fmap_app.
      apply NoDup_app in Hnd as (Hr & Hd & Ha).
      apply NoDup_cons in Ha as [_ Ha].
      apply NoDup_app. split_and!; [done| |done].
      intros x Hx Hx'. apply (Hd x Hx). by right.
Qed.

Lemma term_pass_spec (term : string) acis :
  NoDup (acis.*1) →
  term_pass term acis = (term_filter term acis, term_filter term acis).
Proof.
  intros Hnd. unfold term_pass, term_filter.
  case_decide; [done|]. by rewrite term_loop_filter.
Qed.

Lemma term_filter_NoDup (term : string) l :
  NoDup (l.*1) → NoDup ((term_filter term l).*1).
Proof.
  intros Hnd. unfold term_filter. case_decide; [done|].
  eapply sublist_NoDup; [exact Hnd|]. apply fmap_sublist, sublist_filter.
Qed.

Lemma resolved_filter_NoDup (r : result string)
    (drop : string → ACI X → result bool) l l' :
  resolved_filter r drop l = Ok l' → NoDup (l.*1) → NoDup (l'.*1).
Proof.
  destruct r as [dn|[]]; simpl; try done.
  - apply keep_where_NoDup.
  - by intros [= <-].
Qed.

Lemma M_bind_run {A B} (m : M A) (k : A → M B) (w : directory) r :
  m w = (r, w) →
  (m ≫= k) w = match r with Ok a => k a w | Raise e => (Raise e, w) end.
Proof. intros Hm. unfold mbind, M_bind. rewrite Hm. by destruct r. Qed.

(** One removal pass that copies [results] back to [acis]. *)
Lemma copy_pass_run (drop : ACI X → result bool) (st : @lists X) w :
  lists_ok st →
  (results ← lift (remove_each drop st.1 st.2); mret (results, results)) w
  = (result_map (λ l, (l, l)) (keep_where drop st.2), w).
Proof.
  intros [Heq Hnd]. rewrite Heq, remove_each_copy by done.
  unfold mbind, M_bind, lift, mret, M_ret.
  by destruct (keep_where drop st.2).
Qed.

Lemma aciname_pass_run kw (st : @lists X) w :
  lists_ok st →
  aciname_pass kw st w = (result_map (λ l, (l, l)) (aciname_filter kw st.2), w).
Proof.
  intros Hst. unfold aciname_pass, aciname_filter. destruct st as [acis results].
  destruct (kw_aciname kw); [by apply (copy_pass_run _ (acis, results))|].
  destruct Hst as [Heq _]. simpl in *. by subst.
Qed.

Lemma attrs_pass_run kw (st : @lists X) w :
  lists_ok st →
  attrs_pass kw st w = (result_map (λ l, (l, l)) (attrs_filter kw st.2), w).
Proof.
  intros Hst. unfold attrs_pass, attrs_filter. destruct st as [acis results].
  destruct (kw_attrs kw); [by apply (copy_pass_run _ (acis, results))|].
  destruct Hst as [Heq _]. simpl in *. by subst.
Qed.

Lemma taskgroup_pass_run kw (st : @lists X) w :
  lists_ok st →
  taskgroup_pass kw st w
  = (result_map (λ l, (l, l)) (taskgroup_filter kw w st.2), w).
Proof.
  intros Hst. unfold taskgroup_pass, taskgroup_filter.
  destruct st as [acis results].
  destruct (kw_taskgroup kw) as [tg|].
  - unfold try_else, taskgroup2_show.
    destruct (lookup_group (taskgroups w) tg) as [dn|[]]; simpl; try done.
    + by apply (copy_pass_run _ (acis, results)).
    + destruct Hst as [Heq _]. simpl in *. by subst.
  - destruct Hst as [Heq _]. simpl in *. by subst.
Qed.

Lemma permissions_pass_run kw (st : @lists X) w :
  lists_ok st →
  permissions_pass kw st w
  = (result_map (λ l, (l, l)) (permissions_filter kw st.2), w).
Proof.
  intros Hst. unfold permissions_pass, permissions_filter.
  destruct st as [acis results].
  destruct (kw_permissions kw) as [perms|].
  - destruct Hst as [Heq Hnd]. simpl in *. subst acis.
    rewrite (remove_each_copy _ results Hnd).
    unfold mbind, M_bind, lift, mret, M_ret.
    destruct results as [|a results]; [done|].
    by destruct (keep_where _ (a :: results)).
  - destruct Hst as [Heq _]. simpl in *. by subst.
Qed.

Lemma memberof_pass_run kw (st : @lists X) w :
  lists_ok st →
  memberof_pass kw st w
  = (result_map (λ l, (st.1, l)) (memberof_filter kw w st.2), w).
Proof.
  intros [Heq Hnd]. unfold memberof_pass, memberof_filter.
  destruct st as [acis results]. simpl in *. subst acis.
  destruct (kw_memberof kw) as [g|]; [|done].
  unfold try_else, group2_show.
  destruct (lookup_group (groups w) g) as [dn|[]]; simpl; try done.
  rewrite (remove_each_copy _ results Hnd).
  unfold mbind, M_bind, lift, mret, M_ret.
  by destruct (keep_where _ results).
Qed.

Lemma copied_ok l : NoDup (l.*1) → lists_ok (l, l).
Proof. by split. Qed.

(** The search as written, with its two lists changed while they are
    visited, computes the chain of filters and leaves the directory as
    it was. *)
Lemma find_objects_filters (term : string) kw w :
  ∃ r, find_objects term kw w = (r, w)
       ∧ result_map snd r = find_filters term kw w.
Proof.
  unfold find_objects, find_filters, stored_acis.
  rewrite (M_bind_run get_entry _ w (Ok (base_entry w))) by done.
  set (acis := tag_objects _).
  assert (NoDup (acis.*1)) as Hnd by apply tag_objects_NoDup.
  rewrite (term_pass_spec term acis Hnd).
  pose proof (term_filter_NoDup term acis Hnd) as Hnd0.
  set (l0 := term_filter term acis) in *. clearbody l0. clear acis Hnd.
  rewrite (M_bind_run _ _ w _ (aciname_pass_run kw (l0, l0) w (copied_ok _ Hnd0))).
  simpl. destruct (aciname_filter kw l0) as [l1|e] eqn:H1; simpl;
    [|by eexists].
  assert (NoDup (l1.*1)) as Hnd1.
  { unfold aciname_filter in H1. destruct (kw_aciname kw).
    - by eapply keep_where_NoDup. - by injection H1 as <-. }
  rewrite (M_bind_run _ _ w _ (attrs_pass_run kw (l1, l1) w (copied_ok _ Hnd1))).
  simpl. destruct (attrs_filter kw l1) as [l2|e] eqn:H2; simpl;
    [|by eexists].
  assert (NoDup (l2.*1)) as Hnd2.
  { unfold attrs_filter in H2. destruct (kw_attrs kw).
    - by eapply keep_where_NoDup. - by injection H2 as <-. }
  rewrite (M_bind_run _ _ w _ (taskgroup_pass_run kw (l2, l2) w (copied_ok _ Hnd2))).
  simpl. destruct (taskgroup_filter kw w l2) as [l3|e] eqn:H3; simpl;
    [|by eexists].
  assert (NoDup (l3.*1)) as Hnd3.
  { unfold taskgroup_filter in H3. destruct (kw_taskgroup kw).
    - by eapply resolved_filter_NoDup. - by injection H3 as <-. }
  rewrite (M_bind_run _ _ w _ (permissions_pass_run kw (l3, l3) w (copied_ok _ Hnd3))).
  simpl. destruct (permissions_filter kw l3) as [l4|e] eqn:H4; simpl;
    [|by eexists].
  assert (NoDup (l4.*1)) as Hnd4.
  { unfold permissions_filter in H4. destruct (kw_permissions kw).
    - by eapply keep_where_NoDup. - by injection H4 as <-. }
  change (∃ r, memberof_pass kw (l4, l4) w = (r, w)
               ∧ result_map snd r = memberof_filter kw w l4).
  rewrite (memberof_pass_run kw (l4, l4) w (copied_ok _ Hnd4)).
  eexists; split; [done|]. simpl.
  by destruct (memberof_filter kw w l4).
Qed.

Lemma aci2_find_filters (term : string) kw w :
  aci2_find term kw w = (result_map texts (find_filters term kw w), w).
Proof.
  destruct (find_objects_filters term kw w) as (r & Hrun & Hr).
  unfold aci2_find. rewrite (M_bind_run _ _ w r Hrun). rewrite <- Hr.
  by destruct r as [[acis results]|e].
Qed.

End RemovalPasses.

(** ** The examples' directory *)

Section FixtureFacts.

Import Fixture.

Example fixture_text :
  fx_str aci_rw =
    "(targetattr = " +:+ quoted "cn || sn" +:+ ")(version 3.0;acl "
    +:+ quoted "a1" +:+ ";allow (read,write) groupdn = "
    +:+ quoted "ldap:///cn=editors,cn=taskgroups,dc=example" +:+ ";)".
Proof. vm_compute. reflexivity. Qed.

Example fixture_decoding :
  stored_acis dir = [aci_title; aci_rw; aci_rwa; aci_staff; aci_full].
Proof. vm_compute. reflexivity. Qed.

End FixtureFacts.

(** ** Lookup by name, delete and create *)

Section Commands.

Context {X : Type} `{!ACIClass X} `{!Env}.

Implicit Types (a aci : ACI X) (acis : list (ACI X)) (w : directory).

(** The lookup returns the first ACI whose name is the wanted one up to
    letter case. *)
Lemma _find_aci_by_name_Ok acis (aciname : string) aci :
  _find_aci_by_name acis aciname = Ok aci →
  ∃ l1 l2, acis = l1 ++ aci :: l2
           ∧ PyStr.lower (name aci) = PyStr.lower aciname
           ∧ Forall (λ b, PyStr.lower (name b) ≠ PyStr.lower aciname) l1.
Proof.
  induction acis as [|b acis IH]; simpl; [done|].
  case_decide as Hb.
  - intros [= ->]. by exists [], acis.
  - intros (l1 & l2 & -> & Hn & Hl1)%IH.
    exists (b :: l1), l2. split_and!; [done|done|by constructor].
Qed.

Lemma _find_aci_by_name_Raise acis (aciname : string) e :
  _find_aci_by_name acis aciname = Raise e →
  e = NotFound
  ∧ Forall (λ b, PyStr.lower (name b) ≠ PyStr.lower aciname) acis.
Proof.
  induction acis as [|b acis IH]; simpl.
  - by intros [= <-].
  - case_decide as Hb; [done|].
    intros [-> Hl]%IH. split; [done|by constructor].
Qed.

Lemma _find_aci_by_name_absent acis (aciname : string) :
  Forall (λ b, PyStr.lower (name b) ≠ PyStr.lower aciname) acis →
  _find_aci_by_name acis aciname = Raise NotFound.
Proof.
  induction 1 as [|b acis Hb _ IH]; simpl; [done|]. by rewrite decide_False.
Qed.

(** [remove] on strings takes the entry itself when no earlier entry is
    the same string. *)
Lemma list_remove_str_here (pre l : list string) (s : string) :
  s ∉ pre → list_remove str_eqb s (pre ++ s :: l) = Ok (pre ++ l).
Proof.
  induction pre as [|t pre IH]; simpl; intros Hpre.
  - unfold str_eqb. by rewrite bool_decide_eq_true_2.
  - apply not_elem_of_cons in Hpre as [Ht Hpre].
    unfold str_eqb at 1. rewrite bool_decide_eq_false_2 by congruence.
    by rewrite IH.
Qed.

(** The loop of delete, started after the entries [visited] that did not
    match. *)
Lemma delete_loop_first aci (visited post : list string) (s : string) :
  Forall (λ x, isequal aci (ArgStr x) = false) visited →
  isequal aci (ArgStr s) = true →
  ∀ done_, Forall (λ x, isequal aci (ArgStr x) = false) done_ →
  delete_loop aci (visited ++ s :: post) (done_ ++ visited ++ s :: post)
  = Ok (done_ ++ visited ++ post).
Proof.
  induction 1 as [|x visited Hx _ IH]; intros Hs done_ Hdone; simpl.
  - rewrite Hs. apply list_remove_str_here.
    intros Hin. rewrite Forall_forall in Hdone.
    specialize (Hdone _ Hin). congruence.
  - rewrite Hx.
    replace (done_ ++ x :: visited ++ s :: post)
      with ((done_ ++ [x]) ++ visited ++ s :: post)
      by (by rewrite <- app_assoc).
    rewrite IH; [by rewrite <- app_assoc|done|].
    apply Forall_app. split; [done|by constructor].
Qed.

Lemma delete_loop_none aci (todo acistrs : list string) :
  Forall (λ x, isequal aci (ArgStr x) = false) todo →
  delete_loop aci todo acistrs = Ok acistrs.
Proof. induction 1 as [|x todo Hx _ IH]; simpl; [done|]. by rewrite Hx. Qed.

(** Every list splits at its first entry equal to the ACI, if any. *)
Lemma first_equal_entry aci (l : list string) :
  Forall (λ x, isequal aci (ArgStr x) = false) l
  ∨ ∃ l1 s l2, l = l1 ++ s :: l2
               ∧ Forall (λ x, isequal aci (ArgStr x) = false) l1
               ∧ isequal aci (ArgStr s) = true.
Proof.
  induction l as [|x l [IH|(l1 & s & l2 & -> & Hl1 & Hs)]].
  - by left.
  - destruct (isequal aci (ArgStr x)) eqn:Hx.
    + right. by exists [], x, l.
    + left. by constructor.
  - right. destruct (isequal aci (ArgStr x)) eqn:Hx.
    + by exists [], x, (l1 ++ s :: l2).
    + exists (x :: l1), s, l2. split_and!; [done|by constructor|done].
Qed.

Lemma aci2_delete_run aciname w :
  aci2_delete aciname w =
    match _find_aci_by_name (stored_acis w) aciname with
    | Ok aci =>
        match delete_loop aci (entry_values w) (entry_values w) with
        | Ok kept => (Ok true, with_aci_values kept w)
        | Raise e => (Raise e, w)
        end
    | Raise e => (Raise e, w)
    end.
Proof.
  unfold aci2_delete, stored_acis, entry_values, with_aci_values.
  unfold mbind, M_bind, get_entry, lift, update_entry, mret, M_ret.
  destruct (_find_aci_by_name _ aciname) as [aci|e]; [|done].
  by destruct (delete_loop aci _ _).
Qed.

(** The outcomes of delete for every ACI class.  It fails with NotFound,
    and writes nothing, when no decoded ACI has the given name up to
    letter case.  Otherwise it takes the first decoded ACI with that name,
    removes the first raw entry that [isequal] accepts for it (all entries
    before and after stay, in order; when [isequal] accepts none the value
    is written back as it was), writes the value of [aci] back and returns
    True. *)
Lemma aci2_delete_cases aciname w :
  match _find_aci_by_name (stored_acis w) aciname with
  | Raise _ =>
      Forall (λ b, PyStr.lower (name b) ≠ PyStr.lower aciname) (stored_acis w)
      ∧ aci2_delete aciname w = (Raise NotFound, w)
  | Ok aci =>
      (∃ before after,
          stored_acis w = before ++ aci :: after
          ∧ PyStr.lower (name aci) = PyStr.lower aciname
          ∧ Forall (λ b, PyStr.lower (name b) ≠ PyStr.lower aciname) before)
      ∧ ∃ kept,
          aci2_delete aciname w = (Ok true, with_aci_values kept w)
          ∧ ((∃ l1 s l2,
                 entry_values w = l1 ++ s :: l2
                 ∧ Forall (λ x, isequal aci (ArgStr x) = false) l1
                 ∧ isequal aci (ArgStr s) = true
                 ∧ kept = l1 ++ l2)
             ∨ (Forall (λ x, isequal aci (ArgStr x) = false) (entry_values w)
                ∧ kept = entry_values w))
  end.
Proof.
  rewrite aci2_delete_run.
  destruct (_find_aci_by_name (stored_acis w) aciname) as [aci|e] eqn:Hfind.
  - split; [by apply _find_aci_by_name_Ok|].
    destruct (first_equal_entry aci (entry_values w))
      as [Hnone|(l1 & s & l2 & Hsplit & Hl1 & Hs)].
    + exists (entry_values w). rewrite delete_loop_none by done.
      split; [done|]. by right.
    + exists (l1 ++ l2). rewrite Hsplit.
      pose proof (delete_loop_first aci l1 l2 s Hl1 Hs [] (Forall_nil_2 _))
        as Hloop.
      simpl in Hloop. rewrite Hloop.
      split; [done|]. left. by exists l1, s, l2.
  - by apply _find_aci_by_name_Raise in Hfind as [-> Hall].
Qed.

(** The loop of delete never raises: it computes [remove_first]. *)
Lemma delete_loop_remove_first aci (l : list string) :
  delete_loop aci l l = Ok (remove_first (λ x, isequal aci (ArgStr x)) l).
Proof.
  destruct (first_equal_entry aci l) as [Hnone|(l1 & s & l2 & -> & Hl1 & Hs)].
  - rewrite delete_loop_none by done. f_equal.
    induction Hnone as [|x l Hx _ IH]; simpl; [done|]. by rewrite Hx, <- IH.
  - pose proof (delete_loop_first aci l1 l2 s Hl1 Hs [] (Forall_nil_2 _))
      as Hloop.
    simpl in Hloop. rewrite Hloop. f_equal.
    clear Hloop. induction Hl1 as [|x l1 Hx _ IH]; simpl.
    + by rewrite Hs.
    + by rewrite Hx, <- IH.
Qed.

Lemma aci2_delete_outcome aciname w :
  aci2_delete aciname w =
    match _find_aci_by_name (stored_acis w) aciname with
    | Ok aci =>
        (Ok true,
         with_aci_values
           (remove_first (λ x, isequal aci (ArgStr x)) (entry_values w)) w)
    | Raise e => (Raise e, w)
    end.
Proof.
  rewrite aci2_delete_run.
  destruct (_find_aci_by_name _ aciname) as [aci|e]; [|done].
  by rewrite delete_loop_remove_first.
Qed.

(** *** The builder and the directory *)

Lemma resolve_taskgroup_run aciname kw w :
  resolve_taskgroup aciname kw w =
    match kw_taskgroup kw with
    | None => (Raise (KeyError "taskgroup"), w)
    | Some tg =>
        match taskgroups w !! tg with
        | Some g => (Ok (group_dn g), w)
        | None => (Ok (taskgroup_dn tg), with_taskgroup_entry tg aciname w)
        end
    end.
Proof.
  unfold resolve_taskgroup, except_NotFound, mbind, M_bind, lift,
    taskgroup2_show, taskgroup2_create, lookup_group, with_taskgroup_entry.
  destruct (kw_taskgroup kw) as [tg|]; simpl; [|done].
  by destruct (taskgroups w !! tg).
Qed.

(** Lines 50-76 write nothing. *)
Lemma build_aci_state current aciname kw dn w :
  (build_aci current aciname kw dn w).2 = w.
Proof.
  unfold build_aci, mbind, M_bind, lift, mret, M_ret, group2_show.
  destruct (ACI_init current); [|done].
  destruct (subscript "permissions" (kw_permissions kw)); [|done].
  destruct (kw_memberof kw), (kw_type kw), (kw_targetgroup kw);
    cbv beta iota zeta;
    repeat (match goal with
            | |- context [lookup_group ?m ?g] => destruct (lookup_group m g)
            | |- context [_type_map ?t] => destruct (_type_map t)
            end; cbv beta iota zeta; try done);
    done.
Qed.

Lemma _type_map_exception (t : string) e :
  _type_map t = Raise e → e = KeyError t.
Proof. unfold _type_map. repeat case_decide; congruence. Qed.

Lemma lookup_group_exception (m : gmap string group_entry) (g : string) e :
  lookup_group m g = Raise e → e = NotFound.
Proof. unfold lookup_group. destruct (m !! g); congruence. Qed.

(** The exceptions of lines 50-76 when no text is parsed: a missing or
    unknown key, or a group that does not resolve. *)
Lemma build_aci_exceptions aciname kw dn w e :
  (build_aci None aciname kw dn w).1 = Raise e →
  e = NotFound ∨ ∃ key, e = KeyError key.
Proof.
  unfold build_aci, mbind, M_bind, lift, mret, M_ret, group2_show,
    subscript, ACI_init.
  destruct (kw_permissions kw); [|intros [= <-]; eauto].
  destruct (kw_memberof kw), (kw_type kw), (kw_targetgroup kw);
    cbv beta iota zeta;
    repeat (match goal with
            | |- context [lookup_group ?m ?g] =>
                destruct (lookup_group m g) eqn:?
            | |- context [_type_map ?t] => destruct (_type_map t) eqn:?
            end; cbv beta iota zeta);
    intros [= <-];
    repeat match goal with
           | Hl : lookup_group _ _ = Raise _ |- _ =>
               apply lookup_group_exception in Hl
           | Ht : _type_map _ = Raise _ |- _ =>
               apply _type_map_exception in Ht
           end; eauto.
Qed.

Lemma _make_aci_run current aciname kw w :
  _make_aci current aciname kw w =
    match resolve_taskgroup aciname kw w with
    | (Ok dn, w1) => ((build_aci current aciname kw dn w1).1, w1)
    | (Raise e, w1) => (Raise e, w1)
    end.
Proof.
  unfold _make_aci, mbind, M_bind.
  destruct (resolve_taskgroup aciname kw w) as [[dn|e] w1]; [|done].
  rewrite <- (build_aci_state current aciname kw dn w1) at 3.
  by destruct (build_aci current aciname kw dn w1).
Qed.

(** The builder leaves the base entry and the groups alone. *)
Lemma _make_aci_base_entry current aciname kw w :
  base_entry (_make_aci current aciname kw w).2 = base_entry w
  ∧ groups (_make_aci current aciname kw w).2 = groups w.
Proof.
  rewrite _make_aci_run, resolve_taskgroup_run.
  destruct (kw_taskgroup kw) as [tg|]; [|done].
  by destruct (taskgroups w !! tg).
Qed.

Lemma aci2_create_run aciname kw w :
  aci2_create aciname kw w =
    match _make_aci None aciname kw w with
    | (Raise e, w1) => (Raise e, w1)
    | (Ok newaci, w1) =>
        if existsb (λ a, isequal a (ArgACI newaci)) (stored_acis w1)
        then (Raise DuplicateEntry, w1)
        else
          match base_entry w1 !! "acis" with
          | None => (Raise (KeyError "acis"), w1)
          | Some l =>
              (Ok (aci_str newaci),
               mk_directory
                 (<["acis" := l ++ [aci_str newaci]]> (base_entry w1))
                 (taskgroups w1) (groups w1))
          end
    end.
Proof.
  unfold aci2_create, stored_acis, entry_values.
  unfold mbind at 1. unfold M_bind at 1.
  destruct (_make_aci None aciname kw w) as [[newaci|e] w1]; [|done].
  unfold mbind, M_bind, get_entry, raise, lift, update_entry, mret, M_ret.
  destruct (existsb _ _); [done|].
  by destruct (base_entry w1 !! "acis").
Qed.

(** Create never writes under the key ['aci']. *)
Lemma aci2_create_aci_values aciname kw w :
  base_entry (aci2_create aciname kw w).2 !! "aci" = base_entry w !! "aci".
Proof.
  rewrite aci2_create_run.
  destruct (_make_aci_base_entry None aciname kw w) as [Hbase _].
  destruct (_make_aci None aciname kw w) as [[newaci|e] w1]; simpl in *;
    [|by rewrite Hbase].
  destruct (existsb _ _); simpl; [by rewrite Hbase|].
  destruct (base_entry w1 !! "acis") as [l|]; simpl; [|by rewrite Hbase].
  by rewrite lookup_insert_ne, Hbase.
Qed.

(** C1: what create does instead of appending to [aci].  Whatever the
    request and the directory, the value of the attribute [aci] is the
    same after create as before: line 181 subscripts the entry with
    ['acis'].  When the entry has no attribute of that name, as the
    entry fetched with the attribute list [['aci']] has not, create
    does not return at all. *)
Theorem aci2_create_leaves_aci_attribute aciname kw w :
  base_entry (aci2_create aciname kw w).2 !! "aci" = base_entry w !! "aci"
  ∧ match base_entry w !! "acis" with
    | None => is_ok (aci2_create aciname kw w).1 = false
    | Some _ => True
    end.
Proof.
  rewrite aci2_create_run.
  destruct (_make_aci_base_entry None aciname kw w) as [Hbase _].
  destruct (_make_aci None aciname kw w) as [[newaci|e] w1]; simpl in *.
  - destruct (existsb _ _); simpl.
    + rewrite Hbase. split; [done|]. by destruct (base_entry w !! "acis").
    + rewrite Hbase. destruct (base_entry w !! "acis") as [l|]; simpl.
      * split; [|done]. by rewrite lookup_insert_ne, ?Hbase.
      * by rewrite Hbase.
  - rewrite Hbase. split; [done|]. by destruct (base_entry w !! "acis").
Qed.

(** The half of the claim that holds: a candidate equal to a decoded ACI
    is refused and the base entry stays as it was. *)
Lemma aci2_create_duplicate aciname kw w newaci w1 :
  _make_aci None aciname kw w = (Ok newaci, w1) →
  Exists (λ a, isequal a (ArgACI newaci) = true) (stored_acis w) →
  aci2_create aciname kw w = (Raise DuplicateEntry, w1)
  ∧ base_entry w1 = base_entry w.
Proof.
  intros Hmake Hdup. rewrite aci2_create_run.
  destruct (_make_aci_base_entry None aciname kw w) as [Hbase _].
  rewrite Hmake in *. simpl in Hbase. split; [|done].
  assert (existsb (λ a, isequal a (ArgACI newaci)) (stored_acis w1) = true)
    as ->; [|done].
  unfold stored_acis, entry_values. rewrite Hbase.
  apply existsb_exists. apply Exists_exists in Hdup as (a & Ha & Heq).
  exists a. split; [by apply list_elem_of_In|done].
Qed.

(** *** Modify *)

(** Create never reads [aciname] from its keywords. *)
Lemma aci2_create_without_aciname aciname kw :
  aci2_create aciname (without_aciname kw) = aci2_create aciname kw.
Proof. by destruct kw. Qed.

Lemma aci2_mod_run aciname kw w :
  aci2_mod aciname kw w =
    match _find_aci_by_name (stored_acis w) aciname with
    | Raise e => (Raise e, w)
    | Ok aci =>
        match merge_kw aci kw with
        | Raise e => (Raise e, w)
        | Ok kw' =>
            match aci2_delete aciname w with
            | (Ok _, w1) => aci2_create aciname kw' w1
            | (Raise e, w1) => (Raise e, w1)
            end
        end
    end.
Proof.
  unfold aci2_mod, stored_acis, entry_values.
  unfold mbind at 1 2 3. unfold M_bind at 1 2 3. unfold get_entry, lift.
  destruct (_find_aci_by_name _ aciname) as [aci|e]; [|done].
  destruct (merge_kw aci kw) as [kw'|e]; [|done].
  rewrite aci2_create_without_aciname.
  unfold mbind, M_bind.
  by destruct (aci2_delete aciname w) as [[b|e] w1].
Qed.

(** When the located ACI has its three target sub-clauses, every absent
    request field gets the ACI's value. *)
Lemma merge_kw_defaults aci kw t attrs f :
  target aci = mk_target (Some t) (Some attrs) (Some f) →
  merge_kw aci kw =
    Ok (mk_kwargs
          (setdefault (kw_aciname kw) (name aci))
          (setdefault (kw_taskgroup kw) (bindrule_expression aci))
          (setdefault (kw_permissions kw) (permissions aci))
          (setdefault (kw_attrs kw) attrs)
          (kw_type kw)
          (kw_memberof kw)
          (match kw_memberof kw, kw_filter kw with
           | None, None => Some f
           | _, _ => kw_filter kw
           end)
          (match kw_type kw, kw_targetgroup kw, kw_subtree kw with
           | None, None, None => Some t
           | _, _, _ => kw_subtree kw
           end)
          (kw_targetgroup kw)).
Proof.
  intros Ht. unfold merge_kw. rewrite Ht. simpl.
  destruct (kw_type kw), (kw_targetgroup kw), (kw_subtree kw),
    (kw_memberof kw), (kw_filter kw); reflexivity.
Qed.

(** Modify is delete followed by create on the directory that delete
    left: when create raises, the entry that delete removed stays
    removed. *)
Lemma aci2_mod_not_atomic aciname kw w aci kw' w1 e w2 :
  _find_aci_by_name (stored_acis w) aciname = Ok aci →
  merge_kw aci kw = Ok kw' →
  aci2_delete aciname w = (Ok true, w1) →
  aci2_create aciname kw' w1 = (Raise e, w2) →
  aci2_mod aciname kw w = (Raise e, w2)
  ∧ entry_values w2
    = remove_first (λ x, isequal aci (ArgStr x)) (entry_values w).
Proof.
  intros Hfind Hmerge Hdel Hcreate.
  rewrite aci2_mod_run, Hfind, Hmerge, Hdel, Hcreate. split; [done|].
  rewrite aci2_delete_outcome, Hfind in Hdel. injection Hdel as <-.
  pose proof (aci2_create_aci_values aciname kw'
                (with_aci_values
                   (remove_first (λ x, isequal aci (ArgStr x))
                      (entry_values w)) w)) as Haci.
  rewrite Hcreate in Haci. simpl in Haci.
  unfold entry_values at 1. rewrite Haci.
  by rewrite lookup_insert_eq.
Qed.

(** C4: where modify stops before it deletes or creates anything.  For
    a located ACI that has no [targetattr] sub-clause, or no [target]
    while the request has none of type, targetgroup and subtree, or no
    [targetfilter] while the request has neither memberof nor filter,
    the subscript of lines 252-256 raises KeyError and the directory is
    left as it was. *)
Theorem aci2_mod_keyerror_on_missing_clause aciname kw w aci :
  _find_aci_by_name (stored_acis w) aciname = Ok aci →
  target_targetattr (target aci) = None
  ∨ (target_target (target aci) = None
     ∧ kw_type kw = None ∧ kw_targetgroup kw = None ∧ kw_subtree kw = None)
  ∨ (target_targetfilter (target aci) = None
     ∧ kw_memberof kw = None ∧ kw_filter kw = None) →
  ∃ key, aci2_mod aciname kw w = (Raise (KeyError key), w).
Proof.
  intros Hfind Hmiss. rewrite aci2_mod_run, Hfind.
  unfold merge_kw.
  destruct (target_targetattr (target aci)) as [attrs|] eqn:Hattr; simpl;
    [|by eexists].
  destruct Hmiss as [?|[(Ht & -> & -> & ->)|(Hf & -> & ->)]]; [done| |].
  - rewrite Ht. simpl. by eexists.
  - rewrite Hf.
    destruct (kw_type kw), (kw_targetgroup kw), (kw_subtree kw); simpl;
      try (by eexists);
      destruct (target_target (target aci)); simpl; by eexists.
Qed.

(** *** The builder's group lookups *)

Lemma build_aci_groups current aciname kw dn w w' :
  groups w = groups w' →
  (build_aci current aciname kw dn w).1
  = (build_aci current aciname kw dn w').1.
Proof.
  intros Hg.
  unfold build_aci, mbind, M_bind, lift, mret, M_ret, group2_show.
  destruct (ACI_init current); [|done].
  destruct (subscript "permissions" (kw_permissions kw)); [|done].
  destruct (kw_memberof kw), (kw_type kw), (kw_targetgroup kw);
    cbv beta iota zeta; rewrite ?Hg;
    repeat (match goal with
            | |- context [lookup_group ?m ?g] => destruct (lookup_group m g)
            | |- context [_type_map ?t] => destruct (_type_map t)
            end; cbv beta iota zeta; rewrite ?Hg; try done);
    done.
Qed.

Lemma build_aci_memberof_NotFound aciname kw dn w g perms :
  kw_permissions kw = Some perms →
  kw_memberof kw = Some g →
  groups w !! g = None →
  (build_aci None aciname kw dn w).1 = Raise NotFound.
Proof.
  intros Hp Hm Hg.
  unfold build_aci, mbind, M_bind, lift, mret, M_ret, group2_show,
    lookup_group, ACI_init, subscript.
  rewrite Hp, Hm. cbv beta iota zeta. by rewrite Hg.
Qed.

Lemma build_aci_targetgroup_NotFound aciname kw dn w g perms :
  kw_permissions kw = Some perms →
  (∀ t, kw_type kw = Some t → is_ok (_type_map t) = true) →
  kw_targetgroup kw = Some g →
  groups w !! g = None →
  (build_aci None aciname kw dn w).1 = Raise NotFound.
Proof.
  intros Hp Ht Htg Hg.
  unfold build_aci, mbind, M_bind, lift, mret, M_ret, group2_show,
    lookup_group, ACI_init, subscript.
  rewrite Hp, Htg. cbv beta iota zeta.
  destruct (kw_memberof kw) as [m|]; cbv beta iota zeta;
    [destruct (groups w !! m); cbv beta iota zeta; [|done]|];
    (destruct (kw_type kw) as [t|]; cbv beta iota zeta;
     [specialize (Ht t eq_refl); destruct (_type_map t);
      cbv beta iota zeta; [|done]|]);
    by rewrite Hg.
Qed.

Lemma build_aci_plain aciname dn w k tg perms :
  (build_aci None aciname
     (mk_kwargs k (Some tg) (Some perms) None None None None None None)
     dn w).1
  = Ok (set_bindrule
          ("groupdn = " +:+ dquote +:+ "ldap:///" +:+ dn +:+ dquote)
          (assign_permissions perms (assign_name aciname aci_blank))).
Proof. reflexivity. Qed.

(** C5, as the code has it: when the requested task-group does not
    resolve, the builder adds a task-group under the requested name, with
    the name of the ACI as its description, and goes on as it would for a
    group found with the new DN: the bind rule is set from that DN, and
    the requested name resolves to it afterwards.  A memberof or a
    targetgroup that does not resolve ends the builder with NotFound, and
    no group is added for it. *)
Theorem _make_aci_adds_requested_taskgroup aciname kw w tg :
  kw_taskgroup kw = Some tg →
  (taskgroups w !! tg = None →
     let w1 := with_taskgroup_entry tg aciname w in
     _make_aci None aciname kw w
     = ((build_aci None aciname kw (taskgroup_dn tg) w1).1, w1)
     ∧ taskgroups w1 !! tg = Some (mk_group (taskgroup_dn tg) aciname)
     ∧ taskgroup2_show tg w1 = (Ok (taskgroup_dn tg), w1)
     ∧ (∀ perms,
          kw = mk_kwargs (kw_aciname kw) (Some tg) (Some perms)
                 None None None None None None →
          (_make_aci None aciname kw w).1
          = Ok (set_bindrule
                  ("groupdn = " +:+ dquote +:+ "ldap:///" +:+ taskgroup_dn tg
                   +:+ dquote)
                  (assign_permissions perms
                     (assign_name aciname aci_blank)))))
  ∧ (∀ g perms,
       kw_permissions kw = Some perms →
       kw_memberof kw = Some g → groups w !! g = None →
       (_make_aci None aciname kw w).1 = Raise NotFound)
  ∧ (∀ g perms,
       kw_permissions kw = Some perms →
       (∀ t, kw_type kw = Some t → is_ok (_type_map t) = true) →
       kw_targetgroup kw = Some g → groups w !! g = None →
       (_make_aci None aciname kw w).1 = Raise NotFound)
  ∧ groups (_make_aci None aciname kw w).2 = groups w.
Proof.
  intros Htg. split_and!.
  - intros Habsent w1.
    assert (_make_aci None aciname kw w
            = ((build_aci None aciname kw (taskgroup_dn tg) w1).1, w1))
      as Hrun.
    { by rewrite _make_aci_run, resolve_taskgroup_run, Htg, Habsent. }
    split_and!; [done| | |].
    + subst w1. unfold with_taskgroup_entry. simpl.
      by rewrite lookup_insert_eq.
    + subst w1. unfold taskgroup2_show, lookup_group, with_taskgroup_entry.
      simpl. by rewrite lookup_insert_eq.
    + intros perms Hkw. rewrite Hrun. simpl. rewrite Hkw.
      apply build_aci_plain.
  - intros g perms Hp Hm Hg.
    rewrite _make_aci_run, resolve_taskgroup_run, Htg.
    destruct (taskgroups w !! tg); simpl;
      by eapply build_aci_memberof_NotFound.
  - intros g perms Hp Ht Hm Hg.
    rewrite _make_aci_run, resolve_taskgroup_run, Htg.
    destruct (taskgroups w !! tg); simpl;
      by eapply build_aci_targetgroup_NotFound.
  - apply _make_aci_base_entry.
Qed.

End Commands.

(** ** Stored strings that are no ACI *)

Section MalformedEntries.

Context {X : Type} `{!ACIClass X} `{!Env}.

Implicit Types (w : directory).

Lemma _convert_strings_to_acis_app (l1 l2 : list string) :
  _convert_strings_to_acis (l1 ++ l2)
  = _convert_strings_to_acis l1 ++ _convert_strings_to_acis l2.
Proof.
  induction l1 as [|x l1 IH]; simpl; [done|].
  destruct (aci_parse x); simpl; by rewrite IH.
Qed.

Lemma _convert_strings_to_acis_skip (l1 l2 : list string) (s : string) :
  aci_parse s = None →
  _convert_strings_to_acis (l1 ++ s :: l2)
  = _convert_strings_to_acis (l1 ++ l2).
Proof.
  intros Hs. rewrite !_convert_strings_to_acis_app. simpl. by rewrite Hs.
Qed.

Lemma remove_first_skip (P : string → bool) (l1 l2 : list string) (s : string) :
  aci_parse s = None → P s = false →
  _convert_strings_to_acis (remove_first P (l1 ++ s :: l2))
  = _convert_strings_to_acis (remove_first P (l1 ++ l2)).
Proof.
  intros Hs HP. induction l1 as [|x l1 IH]; simpl.
  - rewrite HP. simpl. by rewrite Hs.
  - destruct (P x).
    + by apply _convert_strings_to_acis_skip.
    + simpl. by rewrite IH.
Qed.

Lemma stored_acis_with_aci_values (v : list string) w :
  stored_acis (with_aci_values v w) = _convert_strings_to_acis v.
Proof.
  unfold stored_acis, entry_values, with_aci_values. simpl.
  by rewrite lookup_insert_eq.
Qed.

Lemma same_reading_with_aci_values (v v' : list string) w :
  _convert_strings_to_acis v = _convert_strings_to_acis v' →
  same_reading (with_aci_values v w) (with_aci_values v' w).
Proof.
  intros Hv. unfold same_reading. rewrite !stored_acis_with_aci_values.
  split_and!; [done| |done|done].
  unfold with_aci_values. simpl. by rewrite !lookup_insert_ne.
Qed.

(** *** What each command returns, as a function of what it reads *)

Lemma aci2_show_run aciname w :
  aci2_show aciname w
  = (result_map aci_str (_find_aci_by_name (stored_acis w) aciname), w).
Proof.
  unfold aci2_show, stored_acis, entry_values.
  unfold mbind, M_bind, get_entry, lift, mret, M_ret.
  by destruct (_find_aci_by_name _ aciname).
Qed.

Lemma _make_aci_outcome current aciname kw w w' :
  taskgroups w = taskgroups w' → groups w = groups w' →
  (_make_aci current aciname kw w).1 = (_make_aci current aciname kw w').1.
Proof.
  intros Ht Hg. rewrite !_make_aci_run, !resolve_taskgroup_run, Ht.
  destruct (kw_taskgroup kw) as [tg|]; [|done].
  destruct (taskgroups w' !! tg); simpl; by apply build_aci_groups.
Qed.

Lemma aci2_create_outcome aciname kw w :
  (aci2_create aciname kw w).1 =
    match (_make_aci None aciname kw w).1 with
    | Raise e => Raise e
    | Ok newaci =>
        if existsb (λ a, isequal a (ArgACI newaci)) (stored_acis w)
        then Raise DuplicateEntry
        else match base_entry w !! "acis" with
             | None => Raise (KeyError "acis")
             | Some _ => Ok (aci_str newaci)
             end
    end.
Proof.
  rewrite aci2_create_run.
  destruct (_make_aci_base_entry None aciname kw w) as [Hbase _].
  destruct (_make_aci None aciname kw w) as [[newaci|e] w1]; simpl in *;
    [|done].
  unfold stored_acis, entry_values. rewrite Hbase.
  destruct (existsb _ _); [done|].
  by destruct (base_entry w !! "acis").
Qed.

Lemma aci2_mod_outcome aciname kw w :
  (aci2_mod aciname kw w).1 =
    match _find_aci_by_name (stored_acis w) aciname with
    | Raise e => Raise e
    | Ok aci =>
        match merge_kw aci kw with
        | Raise e => Raise e
        | Ok kw' =>
            (aci2_create aciname kw'
               (with_aci_values
                  (remove_first (λ x, isequal aci (ArgStr x))
                     (entry_values w)) w)).1
        end
    end.
Proof.
  rewrite aci2_mod_run, aci2_delete_outcome.
  destruct (_find_aci_by_name _ aciname) as [aci|e]; [|done].
  by destruct (merge_kw aci kw).
Qed.

Lemma aci2_show_same_reading aciname w w' :
  same_reading w w' → (aci2_show aciname w).1 = (aci2_show aciname w').1.
Proof. intros (Hs & _). by rewrite !aci2_show_run, Hs. Qed.

Lemma aci2_delete_same_reading aciname w w' :
  same_reading w w' → (aci2_delete aciname w).1 = (aci2_delete aciname w').1.
Proof.
  intros (Hs & _). rewrite !aci2_delete_outcome, Hs.
  by destruct (_find_aci_by_name _ aciname).
Qed.

Lemma aci2_create_same_reading aciname kw w w' :
  same_reading w w' →
  (aci2_create aciname kw w).1 = (aci2_create aciname kw w').1.
Proof.
  intros (Hs & Ha & Ht & Hg).
  by rewrite !aci2_create_outcome, Hs, Ha,
    (_make_aci_outcome None aciname kw w w' Ht Hg).
Qed.

Lemma aci2_find_same_reading (term : string) kw w w' :
  same_reading w w' →
  (aci2_find term kw w).1 = (aci2_find term kw w').1.
Proof.
  intros (Hs & _ & Ht & Hg). rewrite !aci2_find_filters. simpl.
  unfold find_filters, taskgroup_filter, memberof_filter.
  by rewrite Hs, Ht, Hg.
Qed.

(** *** The exceptions of the commands *)

Lemma keep_where_exception (drop : ACI X → result bool) (l : list (@obj X)) e :
  keep_where drop l = Raise e → ∃ a, drop a = Raise e.
Proof.
  induction l as [|a l IH]; simpl; [done|].
  destruct (drop a.2) as [d|e'] eqn:Hd; simpl.
  - destruct (keep_where drop l); simpl; [done|].
    intros [= <-]. by apply IH.
  - intros [= <-]. by exists a.2.
Qed.

Lemma resolved_filter_exception (m : gmap string group_entry) (g : string)
    (drop : string → ACI X → result bool) (l : list (@obj X)) e :
  resolved_filter (lookup_group m g) drop l = Raise e →
  ∃ dn a, drop dn a = Raise e.
Proof.
  unfold lookup_group. destruct (m !! g) as [grp|]; simpl; [|done].
  intros (a & Ha)%keep_where_exception. eauto.
Qed.

Lemma aciname_filter_total kw (l : list (@obj X)) e :
  aciname_filter kw l ≠ Raise e.
Proof.
  unfold aciname_filter. destruct (kw_aciname kw); [|done].
  by intros (a & Ha)%keep_where_exception.
Qed.

Lemma attrs_filter_exception kw (l : list (@obj X)) e :
  attrs_filter kw l = Raise e → e = KeyError "targetattr".
Proof.
  unfold attrs_filter. destruct (kw_attrs kw) as [attrs|]; [|done].
  intros (a & Ha)%keep_where_exception.
  unfold attrs_drop, subscript in Ha.
  destruct (target_targetattr (target a)); by simplify_eq/=.
Qed.

Lemma taskgroup_filter_total kw w (l : list (@obj X)) e :
  taskgroup_filter kw w l ≠ Raise e.
Proof.
  unfold taskgroup_filter. destruct (kw_taskgroup kw); [|done].
  by intros (dn & a & Ha)%resolved_filter_exception.
Qed.

Lemma permissions_filter_total kw (l : list (@obj X)) e :
  permissions_filter kw l ≠ Raise e.
Proof.
  unfold permissions_filter. destruct (kw_permissions kw); [|done].
  by intros (a & Ha)%keep_where_exception.
Qed.

Lemma memberof_filter_total kw w (l : list (@obj X)) e :
  memberof_filter kw w l ≠ Raise e.
Proof.
  unfold memberof_filter. destruct (kw_memberof kw); [|done].
  intros (dn & a & Ha)%resolved_filter_exception.
  unfold memberof_drop in Ha. by destruct (target_targetfilter (target a)).
Qed.

(** The search raises nothing but the KeyError of the attrs pass. *)
Lemma find_filters_exception (term : string) kw w e :
  find_filters term kw w = Raise e → e = KeyError "targetattr".
Proof.
  unfold find_filters.
  destruct (aciname_filter kw _) as [l1|e1] eqn:H1; simpl;
    [|by apply aciname_filter_total in H1].
  destruct (attrs_filter kw l1) as [l2|e2] eqn:H2; simpl;
    [|intros [= <-]; by apply attrs_filter_exception in H2].
  destruct (taskgroup_filter kw w l2) as [l3|e3] eqn:H3; simpl;
    [|by apply taskgroup_filter_total in H3].
  destruct (permissions_filter kw l3) as [l4|e4] eqn:H4; simpl;
    [|by apply permissions_filter_total in H4].
  intros H5. by apply memberof_filter_total in H5.
Qed.

Lemma _make_aci_exceptions aciname kw w e :
  (_make_aci None aciname kw w).1 = Raise e →
  e = NotFound ∨ ∃ key, e = KeyError key.
Proof.
  rewrite _make_aci_run, resolve_taskgroup_run.
  destruct (kw_taskgroup kw) as [tg|]; [|intros [= <-]; eauto].
  destruct (taskgroups w !! tg); simpl; apply build_aci_exceptions.
Qed.

Lemma aci2_create_exceptions aciname kw w e :
  (aci2_create aciname kw w).1 = Raise e →
  e = NotFound ∨ e = DuplicateEntry ∨ ∃ key, e = KeyError key.
Proof.
  rewrite aci2_create_outcome.
  destruct (_make_aci None aciname kw w).1 as [newaci|e'] eqn:Hmake.
  - destruct (existsb _ _); [intros [= <-]; auto|].
    destruct (base_entry w !! "acis"); intros [= <-]; eauto.
  - intros [= <-]. apply _make_aci_exceptions in Hmake as [->|Hk]; auto.
Qed.

Lemma merge_kw_exception (aci : ACI X) kw e :
  merge_kw aci kw = Raise e → ∃ key, e = KeyError key.
Proof.
  unfold merge_kw, subscript.
  destruct (target_targetattr (target aci)); simpl; [|intros [= <-]; eauto].
  destruct (target_target (target aci)), (target_targetfilter (target aci)),
    (kw_type kw), (kw_targetgroup kw), (kw_subtree kw),
    (kw_memberof kw), (kw_filter kw); simpl; intros [= <-]; eauto.
Qed.

Lemma aci2_mod_exceptions aciname kw w e :
  (aci2_mod aciname kw w).1 = Raise e →
  e = NotFound ∨ e = DuplicateEntry ∨ ∃ key, e = KeyError key.
Proof.
  rewrite aci2_mod_outcome.
  destruct (_find_aci_by_name _ aciname) as [aci|e'] eqn:Hfind.
  - destruct (merge_kw aci kw) as [kw'|e'] eqn:Hmerge.
    + apply aci2_create_exceptions.
    + intros [= <-]. apply merge_kw_exception in Hmerge. auto.
  - intros [= <-]. apply _find_aci_by_name_Raise in Hfind as [-> _]. auto.
Qed.

(** C9: a stored string that raises SyntaxError adds nothing to the
    decoded list, and every command returns what it returns on the
    directory without that string; none of them raises SyntaxError.
    (For modify, whose delete step compares the raw strings with
    [isequal], the string is taken not to be equal to any ACI.) *)
Theorem malformed_entry_is_passed_over (s : string) (l1 l2 : list string) w :
  aci_parse s = None →
  entry_values w = l1 ++ s :: l2 →
  let w' := with_aci_values (l1 ++ l2) w in
  stored_acis w = _convert_strings_to_acis (l1 ++ l2)
  ∧ stored_acis w' = _convert_strings_to_acis (l1 ++ l2)
  ∧ (∀ aciname,
       (aci2_show aciname w).1 = (aci2_show aciname w').1
       ∧ (aci2_show aciname w).1 ≠ Raise SyntaxError)
  ∧ (∀ term kw,
       (aci2_find term kw w).1 = (aci2_find term kw w').1
       ∧ (aci2_find term kw w).1 ≠ Raise SyntaxError)
  ∧ (∀ aciname kw,
       (aci2_create aciname kw w).1 = (aci2_create aciname kw w').1
       ∧ (aci2_create aciname kw w).1 ≠ Raise SyntaxError)
  ∧ (∀ aciname,
       (aci2_delete aciname w).1 = (aci2_delete aciname w').1
       ∧ (aci2_delete aciname w).1 ≠ Raise SyntaxError)
  ∧ (∀ aciname kw,
       (aci2_mod aciname kw w).1 ≠ Raise SyntaxError
       ∧ ((∀ a, isequal a (ArgStr s) = false) →
          (aci2_mod aciname kw w).1 = (aci2_mod aciname kw w').1)).
Proof.
  intros Hs Hw w'.
  assert (stored_acis w = _convert_strings_to_acis (l1 ++ l2)) as Hdec.
  { unfold stored_acis. rewrite Hw. by apply _convert_strings_to_acis_skip. }
  assert (stored_acis w' = _convert_strings_to_acis (l1 ++ l2)) as Hdec'
    by apply stored_acis_with_aci_values.
  assert (same_reading w w') as Hsame.
  { unfold same_reading. rewrite Hdec, Hdec'. split_and!; try done.
    subst w'. unfold with_aci_values. simpl. by rewrite lookup_insert_ne. }
  split_and!; try done.
  - intros aciname. split; [by apply aci2_show_same_reading|].
    rewrite aci2_show_run. simpl.
    destruct (_find_aci_by_name _ aciname) as [a|e] eqn:Hfind; [done|].
    by apply _find_aci_by_name_Raise in Hfind as [-> _].
  - intros term kw. split; [by apply aci2_find_same_reading|].
    rewrite aci2_find_filters. simpl.
    destruct (find_filters term kw w) as [l|e] eqn:Hfind; [done|].
    by apply find_filters_exception in Hfind as ->.
  - intros aciname kw. split; [by apply aci2_create_same_reading|].
    intros Hraise.
    apply aci2_create_exceptions in Hraise as [?|[?|[key ?]]]; done.
  - intros aciname. split; [by apply aci2_delete_same_reading|].
    rewrite aci2_delete_outcome.
    destruct (_find_aci_by_name _ aciname) as [a|e] eqn:Hfind; [done|].
    by apply _find_aci_by_name_Raise in Hfind as [-> _].
  - intros aciname kw. split.
    + intros Hraise.
      apply aci2_mod_exceptions in Hraise as [?|[?|[key ?]]]; done.
    + intros Hneq. rewrite !aci2_mod_outcome.
      destruct Hsame as (Hst & _). rewrite <- Hst.
      destruct (_find_aci_by_name _ aciname) as [aci|e]; [|done].
      destruct (merge_kw aci kw) as [kw'|e]; [|done].
      apply aci2_create_same_reading.
      assert (entry_values w' = l1 ++ l2) as Hw'.
      { subst w'. unfold entry_values, with_aci_values. simpl.
        by rewrite lookup_insert_eq. }
      rewrite Hw, Hw'.
      assert (_convert_strings_to_acis
                (remove_first (λ x, isequal aci (ArgStr x)) (l1 ++ s :: l2))
              = _convert_strings_to_acis
                  (remove_first (λ x, isequal aci (ArgStr x)) (l1 ++ l2)))
        as Hrem by (by apply remove_first_skip).
      pose proof (same_reading_with_aci_values _ _ w Hrem)
        as (H1 & H2 & H3 & H4).
      unfold same_reading. rewrite !stored_acis_with_aci_values in *.
      split_and!; try done.
      subst w'. unfold with_aci_values. simpl.
      by rewrite !lookup_insert_ne.
Qed.

End MalformedEntries.

(** ** Delete and the comparison of raw strings *)

Section DeleteComparison.

Context {X : Type} `{!ACIClass X} `{!Env}.

(** C3: delete hands [isequal] the raw strings of the entry (line 216),
    where create hands it a decoded ACI (line 177).  When [isequal] finds
    no raw string of the entry equal to the ACI, as a comparison of the
    fields of two ACI objects does, delete of a name that is found removes
    nothing: it writes the value of [aci] back as it was and returns True,
    the decoded ACIs are the same afterwards and show still returns the
    ACI.  The claim has the first equal raw entry removed and the reduced
    value written back. *)
Theorem aci2_delete_removes_nothing (aciname : string) w (aci : ACI X) :
  _find_aci_by_name (stored_acis w) aciname = Ok aci →
  Forall (λ s, isequal aci (ArgStr s) = false) (entry_values w) →
  aci2_delete aciname w = (Ok true, with_aci_values (entry_values w) w)
  ∧ base_entry (aci2_delete aciname w).2 !! "aci" = Some (entry_values w)
  ∧ stored_acis (aci2_delete aciname w).2 = stored_acis w
  ∧ (aci2_show aciname (aci2_delete aciname w).2).1 = Ok (aci_str aci).
Proof.
  intros Hfind Hnone.
  assert (aci2_delete aciname w
          = (Ok true, with_aci_values (entry_values w) w)) as Hrun.
  { by rewrite aci2_delete_run, Hfind, delete_loop_none. }
  assert (stored_acis (with_aci_values (entry_values w) w) = stored_acis w)
    as Hstored by apply stored_acis_with_aci_values.
  rewrite Hrun. simpl. split_and!; [done| |done|].
  - by rewrite lookup_insert_eq.
  - rewrite aci2_show_run. simpl. by rewrite Hstored, Hfind.
Qed.

End DeleteComparison.

(** ** The criteria of the search *)

Lemma sorted_Permutation (l1 l2 : list string) :
  sorted l1 = sorted l2 ↔ l1 ≡ₚ l2.
Proof.
  unfold sorted. split.
  - intros Heq.
    rewrite <- (merge_sort_Permutation String.le l1), Heq.
    apply merge_sort_Permutation.
  - intros Hp. apply (Sorted_unique String.le).
    + apply Sorted_merge_sort, _.
    + apply Sorted_merge_sort, _.
    + by rewrite !merge_sort_Permutation.
Qed.

Lemma result_map_compose {A B C} (f : A → B) (g : B → C) (r : result A) :
  result_map g (result_map f r) = result_map (λ x, g (f x)) r.
Proof. by destruct r. Qed.

Section SearchCriteria.

Context {X : Type} `{!ACIClass X} `{!Env}.

Implicit Types (a : @obj X) (l : list (@obj X)) (w : directory).

Lemma filter_comm (P Q : @obj X → Prop)
    `{!∀ a, Decision (P a), !∀ a, Decision (Q a)} l :
  filter P (filter Q l) = filter Q (filter P l).
Proof.
  rewrite !list_filter_filter. apply list_filter_iff. intros a. tauto.
Qed.

Lemma plain_filter_comm F (P : @obj X → Prop) `{!∀ a, Decision (P a)} l :
  plain_filter F → F (filter P l) = result_map (filter P) (F l).
Proof. intros [d Hd]. rewrite !Hd. simpl. f_equal. apply filter_comm. Qed.

Lemma plain_filter_id : plain_filter (λ l, Ok l).
Proof.
  exists (λ _, true). intros l. f_equal. symmetry. by apply filter_all.
Qed.

Lemma plain_filter_compose F G :
  plain_filter F → plain_filter G →
  plain_filter (λ l, result_bind (F l) G).
Proof.
  intros [d Hd] [e He]. exists (λ a, e a && d a). intros l.
  rewrite Hd. simpl. rewrite He. f_equal.
  rewrite list_filter_filter. apply list_filter_iff. intros a.
  rewrite andb_true_iff. tauto.
Qed.

Lemma plain_filter_keep_where (d : ACI X → bool) :
  plain_filter (keep_where (λ b, Ok (d b))).
Proof.
  exists (λ a, negb (d a.2)). intros l. rewrite keep_where_total. f_equal.
  apply list_filter_iff. intros a. by rewrite negb_true_iff.
Qed.

(** The three passes whose test never raises, as filters. *)
Lemma keep_where_aciname (aciname : string) l :
  keep_where (aciname_drop aciname) l
  = Ok (filter (λ a, name a.2 = aciname) l).
Proof.
  unfold aciname_drop. rewrite keep_where_total. f_equal.
  apply list_filter_iff. intros a.
  by rewrite negb_false_iff, bool_decide_eq_true.
Qed.

Lemma keep_where_taskgroup (dn : string) l :
  keep_where (taskgroup_drop dn) l
  = Ok (filter (λ a, bindrule_expression a.2 = "ldap:///" +:+ dn) l).
Proof.
  unfold taskgroup_drop. rewrite keep_where_total. f_equal.
  apply list_filter_iff. intros a.
  by rewrite negb_false_iff, bool_decide_eq_true.
Qed.

Lemma keep_where_permissions (perms : list string) l :
  keep_where (permissions_drop perms) l
  = Ok (filter (λ a, sorted (permissions a.2) = sorted perms) l).
Proof.
  unfold permissions_drop. rewrite keep_where_total. f_equal.
  apply list_filter_iff. intros a.
  by rewrite negb_false_iff, bool_decide_eq_true.
Qed.

Lemma memberof_drop_total (dn : string) (b : ACI X) :
  memberof_drop dn b
  = Ok (negb (bool_decide (target_targetfilter (target b)
                           = Some ("(memberOf=" +:+ dn +:+ ")")))).
Proof.
  unfold memberof_drop. destruct (target_targetfilter (target b)) as [f|].
  - f_equal. f_equal. apply bool_decide_ext. split; congruence.
  - by rewrite bool_decide_eq_false_2.
Qed.

Lemma keep_where_memberof (dn : string) l :
  keep_where (memberof_drop dn) l
  = Ok (filter (λ a, target_targetfilter (target a.2)
                     = Some ("(memberOf=" +:+ dn +:+ ")")) l).
Proof.
  rewrite (keep_where_drop_ext _ _ l (memberof_drop_total dn)).
  rewrite keep_where_total. f_equal.
  apply list_filter_iff. intros a.
  by rewrite negb_false_iff, bool_decide_eq_true.
Qed.

Lemma plain_filter_resolved (r : result string)
    (drop : string → ACI X → result bool) (d : string → ACI X → bool) :
  (∀ dn b, drop dn b = Ok (d dn b)) →
  (∀ e, r = Raise e → e = NotFound) →
  plain_filter (resolved_filter r drop).
Proof.
  intros Hd Hr. destruct r as [dn|e]; simpl.
  - destruct (plain_filter_keep_where (d dn)) as [t Ht]. exists t.
    intros l. rewrite <- Ht. by apply keep_where_drop_ext.
  - rewrite (Hr e eq_refl). apply plain_filter_id.
Qed.

Lemma taskgroup_filter_plain kw w : plain_filter (X:=X) (taskgroup_filter kw w).
Proof.
  unfold taskgroup_filter.
  destruct (kw_taskgroup kw) as [tg|]; [|apply plain_filter_id].
  eapply plain_filter_resolved;
    [intros; reflexivity|apply lookup_group_exception].
Qed.

Lemma permissions_filter_plain kw : plain_filter (X:=X) (permissions_filter kw).
Proof.
  unfold permissions_filter.
  destruct (kw_permissions kw) as [perms|]; [|apply plain_filter_id].
  apply (plain_filter_keep_where
           (λ b, negb (bool_decide (sorted (permissions b) = sorted perms)))).
Qed.

Lemma memberof_filter_plain kw w : plain_filter (X:=X) (memberof_filter kw w).
Proof.
  unfold memberof_filter.
  destruct (kw_memberof kw) as [g|]; [|apply plain_filter_id].
  eapply plain_filter_resolved;
    [apply memberof_drop_total|apply lookup_group_exception].
Qed.

(** The results of the search without and with the permissions
    criterion. *)
Lemma find_filters_permissions (term : string) kw w perms :
  kw_permissions kw = Some perms →
  find_filters term kw w
  = result_map (filter (λ a, sorted (permissions a.2) = sorted perms))
      (find_filters term (with_permissions None kw) w).
Proof.
  intros Hp. unfold find_filters.
  change (aciname_filter (X:=X) (with_permissions None kw))
    with (aciname_filter (X:=X) kw).
  destruct (aciname_filter kw _) as [l1|e]; simpl; [|done].
  change (attrs_filter (X:=X) (with_permissions None kw) l1)
    with (attrs_filter (X:=X) kw l1).
  destruct (attrs_filter kw l1) as [l2|e]; simpl; [|done].
  change (taskgroup_filter (X:=X) (with_permissions None kw) w l2)
    with (taskgroup_filter (X:=X) kw w l2).
  destruct (taskgroup_filter kw w l2) as [l3|e]; simpl; [|done].
  change (memberof_filter (X:=X) (with_permissions None kw) w l3)
    with (memberof_filter (X:=X) kw w l3).
  unfold permissions_filter at 1. rewrite Hp, keep_where_permissions. simpl.
  apply plain_filter_comm, memberof_filter_plain.
Qed.

(** The same for a task-group that resolves. *)
Lemma find_filters_taskgroup (term : string) kw w tg grp :
  kw_taskgroup kw = Some tg → taskgroups w !! tg = Some grp →
  find_filters term kw w
  = result_map
      (filter (λ a, bindrule_expression a.2 = "ldap:///" +:+ group_dn grp))
      (find_filters term (with_taskgroup None kw) w).
Proof.
  intros Htg Hgrp. unfold find_filters.
  change (aciname_filter (X:=X) (with_taskgroup None kw)) with (aciname_filter (X:=X) kw).
  destruct (aciname_filter kw _) as [l1|e]; simpl; [|done].
  change (attrs_filter (X:=X) (with_taskgroup None kw) l1) with (attrs_filter (X:=X) kw l1).
  destruct (attrs_filter kw l1) as [l2|e]; simpl; [|done].
  unfold taskgroup_filter, lookup_group. rewrite Htg, Hgrp. simpl.
  rewrite keep_where_taskgroup. simpl.
  apply (plain_filter_comm
           (λ l, result_bind (permissions_filter kw l) (memberof_filter kw w))).
  apply plain_filter_compose;
    [apply permissions_filter_plain|apply memberof_filter_plain].
Qed.

(** The same for a memberof group that resolves. *)
Lemma find_filters_memberof (term : string) kw w g grp :
  kw_memberof kw = Some g → groups w !! g = Some grp →
  find_filters term kw w
  = result_map
      (filter (λ a, target_targetfilter (target a.2)
                    = Some ("(memberOf=" +:+ group_dn grp +:+ ")")))
      (find_filters term (with_memberof None kw) w).
Proof.
  intros Hm Hgrp. unfold find_filters.
  change (aciname_filter (X:=X) (with_memberof None kw)) with (aciname_filter (X:=X) kw).
  destruct (aciname_filter kw _) as [l1|e]; simpl; [|done].
  change (attrs_filter (X:=X) (with_memberof None kw) l1) with (attrs_filter (X:=X) kw l1).
  destruct (attrs_filter kw l1) as [l2|e]; simpl; [|done].
  change (taskgroup_filter (X:=X) (with_memberof None kw) w l2)
    with (taskgroup_filter (X:=X) kw w l2).
  destruct (taskgroup_filter kw w l2) as [l3|e]; simpl; [|done].
  change (permissions_filter (X:=X) (with_memberof None kw) l3)
    with (permissions_filter (X:=X) kw l3).
  destruct (permissions_filter kw l3) as [l4|e]; simpl; [|done].
  unfold memberof_filter, lookup_group. rewrite Hm, Hgrp. simpl.
  apply keep_where_memberof.
Qed.

(** A reference that does not resolve: the search is the search without
    the criterion. *)
Lemma find_filters_taskgroup_unresolved (term : string) kw w tg :
  kw_taskgroup kw = Some tg → taskgroups w !! tg = None →
  find_filters term kw w = find_filters term (with_taskgroup None kw) w.
Proof.
  intros Htg Hgrp. unfold find_filters, taskgroup_filter, lookup_group.
  by rewrite Htg, Hgrp.
Qed.

Lemma find_filters_memberof_unresolved (term : string) kw w g :
  kw_memberof kw = Some g → groups w !! g = None →
  find_filters term kw w = find_filters term (with_memberof None kw) w.
Proof.
  intros Hm Hgrp. unfold find_filters, memberof_filter, lookup_group.
  by rewrite Hm, Hgrp.
Qed.

(** The result list of the search as the code computes it. *)
Lemma find_objects_results (term : string) kw w :
  result_map snd (find_objects term kw w).1 = find_filters term kw w.
Proof.
  destruct (find_objects_filters term kw w) as (r & Hrun & Hr).
  by rewrite Hrun.
Qed.

Lemma find_objects_fmap (term : string) kw w (f : list (@obj X) → list (@obj X)) :
  result_map (λ st : lists, f st.2) (find_objects term kw w).1
  = result_map f (find_filters term kw w).
Proof.
  rewrite <- find_objects_results. by destruct (find_objects term kw w).1.
Qed.

(** C7: with the permissions criterion the search keeps, of what it
    keeps without it, exactly the ACIs whose sorted permission list is
    the sorted list of the request, that is whose permissions are the
    requested ones in some order: ["write","read"] keeps an ACI with
    ["read","write"] and removes one with ["read","write","add"]. *)
Theorem find_permissions_exact_match (term : string) kw w perms :
  kw_permissions kw = Some perms →
  result_map snd (find_objects term kw w).1
  = result_map
      (λ st : lists,
         filter (λ a : obj, sorted (permissions a.2) = sorted perms) st.2)
      (find_objects term (with_permissions None kw) w).1
  ∧ (aci2_find term kw w).1
    = result_map
        (λ st : lists,
           texts (filter (λ a : obj, sorted (permissions a.2) = sorted perms)
                    st.2))
        (find_objects term (with_permissions None kw) w).1
  ∧ (∀ b : ACI X,
       sorted (permissions b) = sorted perms ↔ permissions b ≡ₚ perms)
  ∧ (∀ b : ACI X, permissions b = ["read"; "write"] →
                  permissions_drop ["write"; "read"] b = Ok false)
  ∧ (∀ b : ACI X, permissions b = ["read"; "write"; "add"] →
                  permissions_drop ["write"; "read"] b = Ok true).
Proof.
  intros Hp. split_and!.
  - rewrite find_objects_results, (find_filters_permissions term kw w perms Hp).
    symmetry. apply find_objects_fmap.
  - rewrite aci2_find_filters. simpl.
    rewrite (find_filters_permissions term kw w perms Hp).
    rewrite <- find_objects_results, !result_map_compose.
    by destruct (find_objects term (with_permissions None kw) w).1.
  - intros b. apply sorted_Permutation.
  - intros b Hb. unfold permissions_drop. rewrite Hb. reflexivity.
  - intros b Hb. unfold permissions_drop. rewrite Hb. reflexivity.
Qed.

(** C8: a taskgroup or memberof criterion whose name does not resolve
    changes nothing: the search returns what it returns without the
    criterion, with no error.  A task-group that resolves keeps, of what
    the search keeps without the criterion, the ACIs whose bind rule
    expression is [ldap:///] followed by the DN; a memberof group that
    resolves keeps those whose target filter is present and is
    [(memberOf=DN)]. *)
Theorem find_group_criteria (term : string) kw w :
  (∀ tg, kw_taskgroup kw = Some tg → taskgroups w !! tg = None →
         aci2_find term kw w = aci2_find term (with_taskgroup None kw) w)
  ∧ (∀ g, kw_memberof kw = Some g → groups w !! g = None →
          aci2_find term kw w = aci2_find term (with_memberof None kw) w)
  ∧ (∀ tg grp, kw_taskgroup kw = Some tg → taskgroups w !! tg = Some grp →
       result_map snd (find_objects term kw w).1
       = result_map
           (λ st : lists,
              filter (λ a : obj, bindrule_expression a.2
                                 = "ldap:///" +:+ group_dn grp) st.2)
           (find_objects term (with_taskgroup None kw) w).1)
  ∧ (∀ g grp, kw_memberof kw = Some g → groups w !! g = Some grp →
       result_map snd (find_objects term kw w).1
       = result_map
           (λ st : lists,
              filter (λ a : obj, target_targetfilter (target a.2)
                                 = Some ("(memberOf=" +:+ group_dn grp +:+ ")"))
                st.2)
           (find_objects term (with_memberof None kw) w).1).
Proof.
  split_and!.
  - intros tg Htg Hnone. rewrite !aci2_find_filters.
    by rewrite (find_filters_taskgroup_unresolved term kw w tg).
  - intros g Hg Hnone. rewrite !aci2_find_filters.
    by rewrite (find_filters_memberof_unresolved term kw w g).
  - intros tg grp Htg Hgrp.
    rewrite find_objects_results, (find_filters_taskgroup term kw w tg grp)
      by done.
    symmetry. apply find_objects_fmap.
  - intros g grp Hg Hgrp.
    rewrite find_objects_results, (find_filters_memberof term kw w g grp)
      by done.
    symmetry. apply find_objects_fmap.
Qed.

(** *** The aciname criterion *)





End SearchCriteria.

(** ** The commands on the examples' directory *)

Section Examples.

Import Fixture.

(** Create on a directory with nothing stored: no duplicate, and the
    subscript ['acis'] raises. *)
Example create_on_empty_directory :
  aci2_create "a3" (grant "editors" ["read"]) empty_dir
  = (Raise (KeyError "acis"), empty_dir).
Proof. vm_compute. reflexivity. Qed.

(** Create of an ACI that is stored already. *)
Example create_duplicate :
  (aci2_create "A1"
     (mk_kwargs None (Some "editors") (Some ["write"; "read"])
        (Some ["cn"; "sn"]) None None None None None) dir).1
  = Raise DuplicateEntry.
Proof. vm_compute. reflexivity. Qed.

(** Delete by a name in another letter case: the first stored string goes,
    the string that is no ACI stays. *)
Example delete_by_name :
  aci2_delete "EDIT TITLE" dir
  = (Ok true,
     with_aci_values
       ["not an aci"; fx_str aci_rw; fx_str aci_rwa; fx_str aci_staff;
        fx_str aci_full] dir).
Proof. vm_compute. reflexivity. Qed.

Example delete_unknown_name :
  aci2_delete "no such aci" dir = (Raise NotFound, dir).
Proof. vm_compute. reflexivity. Qed.

(** Modify of an ACI without a target filter, changing the permissions
    only. *)
Example modify_without_targetfilter :
  aci2_mod "edit title" (only_permissions ["read"]) dir
  = (Raise (KeyError "targetfilter"), dir).
Proof. vm_compute. reflexivity. Qed.

(** Modify of the ACI with all three sub-clauses: delete runs, create
    raises, and the ACI is gone. *)
Example modify_loses_the_aci :
  aci2_mod "full" (only_permissions ["read"]) dir
  = (Raise (KeyError "acis"),
     with_taskgroup_entry ("ldap:///" +:+ editors_dn) "full"
       (with_aci_values
          [fx_str aci_title; "not an aci"; fx_str aci_rw; fx_str aci_rwa;
           fx_str aci_staff] dir)).
Proof. vm_compute. reflexivity. Qed.

(** The search. *)
Example find_everything :
  aci2_find "" no_kw dir
  = (Ok [fx_str aci_title; fx_str aci_rw; fx_str aci_rwa; fx_str aci_staff;
         fx_str aci_full], dir).
Proof. vm_compute. reflexivity. Qed.

Example find_by_permissions :
  aci2_find "" (only_permissions ["write"; "read"]) dir
  = (Ok [fx_str aci_rw], dir).
Proof. vm_compute. reflexivity. Qed.

Example find_by_attrs :
  (aci2_find "a" (mk_kwargs None None None (Some ["CN"]) None None None None
                    None) dir).1
  = Ok [fx_str aci_rwa].
Proof. vm_compute. reflexivity. Qed.

End Examples.

(** ** The theorems at the examples' directory *)

Section Instances.

Import Fixture.

(** The located ACI has no target filter and the request names neither
    memberof nor filter. *)
Lemma aci2_mod_keyerror_instance :
  _find_aci_by_name (stored_acis dir) "edit title" = Ok aci_title
  ∧ target_targetfilter (target aci_title) = None
  ∧ ∃ key, aci2_mod "edit title" (only_permissions ["read"]) dir
           = (Raise (KeyError key), dir).
Proof.
  assert (_find_aci_by_name (stored_acis dir) "edit title" = Ok aci_title)
    as Hfind by (vm_compute; reflexivity).
  split; [exact Hfind|]. split; [reflexivity|].
  apply (aci2_mod_keyerror_on_missing_clause
           "edit title" (only_permissions ["read"]) dir aci_title Hfind).
  right. right. repeat split.
Defined.

(** The task-group admins does not exist: it is added with the ACI's name
    as its description, and resolves afterwards. *)
Lemma _make_aci_adds_taskgroup_instance :
  taskgroups dir !! "admins" = None
  ∧ taskgroups (with_taskgroup_entry "admins" "a9" dir) !! "admins"
    = Some (mk_group (taskgroup_dn "admins") "a9")
  ∧ taskgroup2_show "admins" (with_taskgroup_entry "admins" "a9" dir)
    = (Ok (taskgroup_dn "admins"), with_taskgroup_entry "admins" "a9" dir).
Proof.
  assert (taskgroups dir !! "admins" = None) as Habsent
    by (vm_compute; reflexivity).
  split; [exact Habsent|].
  destruct (_make_aci_adds_requested_taskgroup
              "a9" (grant "admins" ["read"]) dir "admins" eq_refl)
    as (Hadd & _).
  destruct (Hadd Habsent) as (_ & Hentry & Hshow & _).
  split; [exact Hentry|exact Hshow].
Defined.

(** The new task-group has the requested name, not the name of the ACI. *)
Lemma _make_aci_taskgroup_not_named_after_aci :
  taskgroups (_make_aci None "a9" (grant "admins" ["read"]) dir).2 !! "a9"
  = None
  ∧ taskgroups (_make_aci None "a9" (grant "admins" ["read"]) dir).2 !! "admins"
    = Some (mk_group "cn=admins,cn=taskgroups,dc=example" "a9").
Proof. vm_compute. split; reflexivity. Qed.

Lemma find_permissions_instance :
  kw_permissions (only_permissions ["write"; "read"]) = Some ["write"; "read"]
  ∧ (aci2_find "" (only_permissions ["write"; "read"]) dir).1
    = Ok [fx_str aci_rw].
Proof.
  split; [reflexivity|].
  destruct (find_permissions_exact_match
              "" (only_permissions ["write"; "read"]) dir ["write"; "read"]
              eq_refl) as (_ & Hfind & _).
  rewrite Hfind. vm_compute. reflexivity.
Defined.

Lemma find_group_criteria_instance :
  taskgroups dir !! "nobody" = None
  ∧ aci2_find "" (with_taskgroup (Some "nobody") no_kw) dir
    = aci2_find "" no_kw dir
  ∧ groups dir !! "staff" = Some (mk_group staff_dn "Staff")
  ∧ result_map snd
      (find_objects "" (with_memberof (Some "staff") no_kw) dir).1
    = Ok [(3, aci_staff)].
Proof.
  assert (taskgroups dir !! "nobody" = None) as Hnobody
    by (vm_compute; reflexivity).
  assert (groups dir !! "staff" = Some (mk_group staff_dn "Staff")) as Hstaff
    by (vm_compute; reflexivity).
  split; [exact Hnobody|]. split.
  - exact (proj1 (find_group_criteria
                    "" (with_taskgroup (Some "nobody") no_kw) dir)
             "nobody" eq_refl Hnobody).
  - split; [exact Hstaff|].
    destruct (find_group_criteria "" (with_memberof (Some "staff") no_kw) dir)
      as (_ & _ & _ & Hmember).
    rewrite (Hmember "staff" _ eq_refl Hstaff). vm_compute. reflexivity.
Defined.

Lemma malformed_entry_instance :
  aci_parse "not an aci" = None
  ∧ entry_values dir
    = [fx_str aci_title] ++ "not an aci"
      :: [fx_str aci_rw; fx_str aci_rwa; fx_str aci_staff; fx_str aci_full]
  ∧ stored_acis dir
    = _convert_strings_to_acis
        ([fx_str aci_title]
         ++ [fx_str aci_rw; fx_str aci_rwa; fx_str aci_staff; fx_str aci_full]).
Proof.
  assert (aci_parse "not an aci" = None) as Hs by (vm_compute; reflexivity).
  assert (entry_values dir
          = [fx_str aci_title] ++ "not an aci"
            :: [fx_str aci_rw; fx_str aci_rwa; fx_str aci_staff;
                fx_str aci_full]) as Hw by (vm_compute; reflexivity).
  split; [exact Hs|]. split; [exact Hw|].
  exact (proj1 (malformed_entry_is_passed_over
                  "not an aci" [fx_str aci_title]
                  [fx_str aci_rw; fx_str aci_rwa; fx_str aci_staff;
                   fx_str aci_full] dir Hs Hw)).
Defined.


End Instances.

(** ** Delete under a class that compares ACI objects *)

Section ObjectComparison.

Import Fixture.

(** With [objects_class], delete of a1 returns True and the directory is
    the one it started from: the ACI is still stored and shown. *)
Lemma aci2_delete_removes_nothing_instance :
  _find_aci_by_name (stored_acis (ACIClass0 := objects_class) dir) "a1"
  = Ok aci_rw
  ∧ aci2_delete (ACIClass0 := objects_class) "a1" dir = (Ok true, dir)
  ∧ fx_str aci_rw
    ∈ entry_values (aci2_delete (ACIClass0 := objects_class) "a1" dir).2
  ∧ (aci2_show (ACIClass0 := objects_class) "a1"
       (aci2_delete (ACIClass0 := objects_class) "a1" dir).2).1
    = Ok (fx_str aci_rw).
Proof.
  assert (_find_aci_by_name (stored_acis (ACIClass0 := objects_class) dir) "a1"
          = Ok aci_rw) as Hfind by (vm_compute; reflexivity).
  assert (Forall (λ s, isequal (ACIClass := objects_class) aci_rw (ArgStr s)
                       = false) (entry_values dir)) as Hnone
    by (apply Forall_forall; done).
  destruct (aci2_delete_removes_nothing (ACIClass0 := objects_class)
              "a1" dir aci_rw Hfind Hnone) as (Hrun & _ & _ & Hshow).
  split; [exact Hfind|]. split; [|split; [|exact Hshow]].
  - rewrite Hrun. vm_compute. reflexivity.
  - rewrite Hrun. vm_compute. do 2 right. left.
Defined.

End ObjectComparison.

(** * Further properties of the plugin *)

(** ** The search in closed form *)

Section FindClosedForm.

Context {X : Type} `{!ACIClass X} `{!Env}.

Implicit Types (L : list (@obj X)) (w : directory).

Lemma texts_values L : texts L = map aci_str (L.*2).
Proof.
  induction L as [|o L IH]; [done|].
  rewrite fmap_cons. simpl. by rewrite <- IH.
Qed.

Lemma keep_matching_values (f : ACI X → bool) L :
  (keep_matching f L).*2 = filter (λ a, f a = true) (L.*2).
Proof.
  unfold keep_matching. induction L as [|o L IH]; [done|].
  rewrite fmap_cons, !filter_cons.
  destruct (decide (f o.2 = true)); [rewrite fmap_cons|]; by rewrite IH.
Qed.

Lemma keep_matching_fuse (f g : ACI X → bool) L :
  keep_matching g (keep_matching f L) = keep_matching (λ a, f a && g a) L.
Proof.
  unfold keep_matching. rewrite list_filter_filter.
  apply list_filter_iff. intros o. rewrite andb_true_iff. tauto.
Qed.

Lemma keep_matching_all (f : ACI X → bool) L :
  (∀ a, f a = true) → keep_matching f L = L.
Proof. intros Hf. apply filter_all. intros o _. apply Hf. Qed.

Lemma existsb_keep_matching (g h : ACI X → bool) L :
  existsb (λ o : obj, h o.2) (keep_matching g L)
  = existsb (λ a, g a && h a) (L.*2).
Proof.
  unfold keep_matching. induction L as [|o L IH]; [done|].
  rewrite fmap_cons, filter_cons. simpl.
  destruct (decide (g o.2 = true)) as [Hg|Hg]; simpl.
  - by rewrite Hg, IH.
  - apply not_true_is_false in Hg. by rewrite Hg, IH.
Qed.

Lemma term_filter_match (term : string) L :
  term_filter term L = keep_matching (term_match term) L.
Proof.
  unfold term_filter, keep_matching, term_match. case_decide as Hterm.
  - symmetry. apply filter_all. intros o _.
    by rewrite bool_decide_eq_true_2.
  - apply list_filter_iff. intros o.
    by rewrite bool_decide_eq_false_2.
Qed.

Lemma aciname_filter_match kw L :
  aciname_filter kw L = Ok (keep_matching (aciname_match kw) L).
Proof.
  unfold aciname_filter, keep_matching, aciname_match.
  destruct (kw_aciname kw) as [n|].
  - rewrite keep_where_aciname. f_equal. apply list_filter_iff. intros o.
    by rewrite bool_decide_eq_true.
  - f_equal. symmetry. by apply filter_all.
Qed.

Lemma attrs_filter_match kw L :
  attrs_filter kw L =
    if match kw_attrs kw with
       | Some _ => existsb (λ o : obj, lacks_targetattr_test o.2) L
       | None => false
       end
    then Raise (KeyError "targetattr")
    else Ok (keep_matching (attrs_match kw) L).
Proof.
  unfold attrs_filter, keep_matching, attrs_match, lacks_targetattr_test.
  destruct (kw_attrs kw) as [attrs|].
  - induction L as [|o L IH]; [done|]. simpl. unfold attrs_drop at 1.
    destruct (target_targetattr (target o.2)) as [t|] eqn:Ht; simpl; [|done].
    rewrite IH. destruct (existsb _ L); simpl; [done|].
    rewrite filter_cons, Ht. f_equal.
    destruct (bool_decide (sorted (map PyStr.lower t)
                           = sorted (map PyStr.lower attrs))); by simpl.
  - f_equal. symmetry. apply filter_all. intros o _.
    by destruct (target_targetattr (target o.2)).
Qed.

Lemma taskgroup_filter_match kw w L :
  taskgroup_filter kw w L = Ok (keep_matching (taskgroup_match kw w) L).
Proof.
  unfold taskgroup_filter, keep_matching, taskgroup_match, lookup_group.
  destruct (kw_taskgroup kw) as [tg|];
    [destruct (taskgroups w !! tg) as [g|]|]; simpl.
  - rewrite keep_where_taskgroup. f_equal. apply list_filter_iff. intros o.
    by rewrite bool_decide_eq_true.
  - f_equal. symmetry. by apply filter_all.
  - f_equal. symmetry. by apply filter_all.
Qed.

Lemma permissions_filter_match kw L :
  permissions_filter kw L = Ok (keep_matching (permissions_match kw) L).
Proof.
  unfold permissions_filter, keep_matching, permissions_match.
  destruct (kw_permissions kw) as [perms|].
  - rewrite keep_where_permissions. f_equal. apply list_filter_iff. intros o.
    by rewrite bool_decide_eq_true.
  - f_equal. symmetry. by apply filter_all.
Qed.

Lemma memberof_filter_match kw w L :
  memberof_filter kw w L = Ok (keep_matching (memberof_match kw w) L).
Proof.
  unfold memberof_filter, keep_matching, memberof_match, lookup_group.
  destruct (kw_memberof kw) as [m|];
    [destruct (groups w !! m) as [g|]|]; simpl.
  - rewrite keep_where_memberof. f_equal. apply list_filter_iff. intros o.
    by rewrite bool_decide_eq_true.
  - f_equal. symmetry. by apply filter_all.
  - f_equal. symmetry. by apply filter_all.
Qed.

(** The chain of filters, fused into one test per ACI. *)
Lemma find_filters_closed (term : string) kw w :
  find_filters term kw w =
    if attrs_pass_raises term kw (stored_acis w)
    then Raise (KeyError "targetattr")
    else Ok (keep_matching (find_match term kw w)
               (tag_objects (stored_acis w))).
Proof.
  unfold find_filters.
  rewrite term_filter_match, aciname_filter_match. simpl.
  rewrite keep_matching_fuse, attrs_filter_match.
  assert (match kw_attrs kw with
          | Some _ =>
              existsb (λ o : obj, lacks_targetattr_test o.2)
                (keep_matching
                   (λ a, term_match term a && aciname_match kw a)
                   (tag_objects (stored_acis w)))
          | None => false
          end
          = attrs_pass_raises term kw (stored_acis w)) as ->.
  { unfold attrs_pass_raises. destruct (kw_attrs kw); [|done].
    by rewrite existsb_keep_matching, tag_objects_snd. }
  destruct (attrs_pass_raises term kw (stored_acis w)); [done|].
  simpl. rewrite keep_matching_fuse, taskgroup_filter_match. simpl.
  rewrite keep_matching_fuse, permissions_filter_match. simpl.
  rewrite keep_matching_fuse, memberof_filter_match.
  by rewrite keep_matching_fuse.
Qed.

Lemma find_match_values (term : string) kw w :
  texts (keep_matching (find_match term kw w) (tag_objects (stored_acis w)))
  = map aci_str (filter (λ a, find_match term kw w a = true) (stored_acis w)).
Proof. by rewrite texts_values, keep_matching_values, tag_objects_snd. Qed.

(** X1: the search in one formula.  [aci2_find] leaves the directory as it
    is and returns, in stored order, the text of every decoded ACI that
    passes the test of each supplied criterion; its one exception is the
    KeyError of the attrs pass, raised when attrs is supplied and an ACI
    that the term and aciname tests keep has no [targetattr]; [remove]
    never raises. *)
Theorem aci2_find_closed_form (term : string) kw w :
  aci2_find term kw w
  = (if attrs_pass_raises term kw (stored_acis w)
     then Raise (KeyError "targetattr")
     else Ok (map aci_str
                (filter (λ a, find_match term kw w a = true) (stored_acis w))),
     w).
Proof.
  rewrite aci2_find_filters, find_filters_closed.
  destruct (attrs_pass_raises term kw (stored_acis w)); [done|].
  simpl. by rewrite find_match_values.
Qed.

(** X2: the search with no criterion returns the text of the decoded ACIs
    whose lower-cased name holds the lower-cased term, and with the empty
    term the text of every decoded ACI, in stored order. *)
Theorem aci2_find_no_criterion (term : string) w :
  aci2_find term no_kw w
  = (Ok (map aci_str
           (filter (λ a, PyStr.contains (PyStr.lower (name a))
                           (PyStr.lower term) = true ∨ term = "")
              (stored_acis w))), w)
  ∧ aci2_find "" no_kw w = (Ok (map aci_str (stored_acis w)), w).
Proof.
  assert (∀ t, aci2_find t no_kw w
               = (Ok (map aci_str
                        (filter (λ a, term_match t a = true) (stored_acis w))),
                  w)) as Hfind.
  { intros t. rewrite aci2_find_filters, find_filters_closed. simpl.
    rewrite find_match_values. do 3 f_equal.
    apply list_filter_iff. intros a. unfold find_match. simpl.
    by rewrite !andb_true_r. }
  split.
  - rewrite Hfind. do 3 f_equal. apply list_filter_iff. intros a.
    unfold term_match. rewrite orb_true_iff, bool_decide_eq_true. tauto.
  - rewrite Hfind. do 3 f_equal. by apply filter_all.
Qed.

Lemma startswith_refl (s : string) : PyStr.startswith s s = true.
Proof.
  induction s as [|c s IH]; simpl; [done|].
  by rewrite bool_decide_eq_true_2, IH.
Qed.

Lemma contains_refl (s : string) : PyStr.contains s s = true.
Proof. destruct s; simpl; [done|]. by rewrite bool_decide_eq_true_2, startswith_refl. Qed.

(** X3: what show returns for a name, the search returns for the same
    text as its term. *)
Theorem aci2_show_result_is_found (aciname : string) w (text : string) w' :
  aci2_show aciname w = (Ok text, w') →
  ∃ results, aci2_find aciname no_kw w = (Ok results, w) ∧ text ∈ results.
Proof.
  rewrite aci2_show_run. intros Hshow.
  destruct (_find_aci_by_name (stored_acis w) aciname) as [a|e] eqn:Hfind;
    [|done].
  injection Hshow as <- <-.
  apply _find_aci_by_name_Ok in Hfind as (l1 & l2 & Hsplit & Hname & _).
  eexists. split.
  - rewrite aci2_find_filters, find_filters_closed. simpl.
    by rewrite find_match_values.
  - apply list_elem_of_In, in_map, list_elem_of_In, list_elem_of_filter.
    split.
    + unfold find_match, term_match. simpl.
      by rewrite Hname, contains_refl, orb_true_r.
    + rewrite Hsplit. apply elem_of_app. right. by left.
Qed.

Lemma find_match_term (term : string) kw w (a : ACI X) :
  find_match term kw w a = true → find_match term no_kw w a = true.
Proof.
  unfold find_match. intros Hall.
  repeat (apply andb_prop in Hall as [Hall _]). simpl. by rewrite Hall.
Qed.

(** X16: a criterion only narrows the search.  Whatever the search with
    criteria returns is, in the same order, part of what the search with
    the same term and no criterion returns, which is part of the decoded
    ACIs of the base entry; the search with no criterion never raises. *)
Theorem aci2_find_narrows (term : string) kw w (results : list string) :
  (aci2_find term kw w).1 = Ok results →
  ∃ every, aci2_find term no_kw w = (Ok every, w)
           ∧ results `sublist_of` every
           ∧ every `sublist_of` map aci_str (stored_acis w).
Proof.
  rewrite !aci2_find_filters, !find_filters_closed. simpl.
  destruct (attrs_pass_raises term kw (stored_acis w)); [done|].
  simpl. rewrite !find_match_values. intros [= <-].
  eexists. split; [done|]. split.
  - rewrite <-(list_filter_filter_l
                 (λ a, find_match term kw w a = true)
                 (λ a, find_match term no_kw w a = true))
      by apply find_match_term.
    apply fmap_sublist, sublist_filter.
  - apply fmap_sublist, sublist_filter.
Qed.

End FindClosedForm.

(** ** Names, exceptions and the builder's effects *)

Section Behaviour.

Context {X : Type} `{!ACIClass X} `{!Env}.

Implicit Types (w : directory).

Lemma _find_aci_by_name_lower (acis : list (ACI X)) (n n' : string) :
  PyStr.lower n = PyStr.lower n' →
  _find_aci_by_name acis n = _find_aci_by_name acis n'.
Proof.
  intros Hn. induction acis as [|a acis IH]; simpl; [done|].
  by rewrite Hn, IH.
Qed.

(** X4: show and delete take the name up to letter case: two names with
    the same lower-case form give the same result and the same directory.
    The ACI they reach is the first decoded one of that name, so a later
    ACI of the same name is never reached. *)
Theorem lookup_by_name_ignores_case (n n' : string) w :
  PyStr.lower n = PyStr.lower n' →
  aci2_show n w = aci2_show n' w
  ∧ aci2_delete n w = aci2_delete n' w
  ∧ (∀ text, (aci2_show n w).1 = Ok text →
       ∃ before a after,
         stored_acis w = before ++ a :: after
         ∧ text = aci_str a
         ∧ PyStr.lower (name a) = PyStr.lower n'
         ∧ Forall (λ b, PyStr.lower (name b) ≠ PyStr.lower n') before).
Proof.
  intros Hn. split_and!.
  - by rewrite !aci2_show_run, (_find_aci_by_name_lower _ n n').
  - by rewrite !aci2_delete_outcome, (_find_aci_by_name_lower _ n n').
  - intros text. rewrite aci2_show_run. simpl.
    destruct (_find_aci_by_name (stored_acis w) n) as [a|e] eqn:Hfind; [|done].
    intros [= <-].
    apply _find_aci_by_name_Ok in Hfind as (l1 & l2 & Hsplit & Hname & Hl1).
    rewrite Hn in Hname, Hl1. by exists l1, a, l2.
Qed.

(** X6: what the builder does to the directory.  It never changes the
    base entry or the groups; the only task-group it can add is the
    requested one, when that one is missing; and run again on the
    directory it left, it returns the same result and changes nothing. *)
Theorem _make_aci_effects (current : option string) (aciname : string) kw w :
  base_entry (_make_aci current aciname kw w).2 = base_entry w
  ∧ groups (_make_aci current aciname kw w).2 = groups w
  ∧ (∀ cn, taskgroups (_make_aci current aciname kw w).2 !! cn
           = taskgroups w !! cn
           ∨ (kw_taskgroup kw = Some cn ∧ taskgroups w !! cn = None
              ∧ taskgroups (_make_aci current aciname kw w).2 !! cn
                = Some (mk_group (taskgroup_dn cn) aciname)))
  ∧ _make_aci current aciname kw (_make_aci current aciname kw w).2
    = _make_aci current aciname kw w.
Proof.
  destruct (kw_taskgroup kw) as [tg|] eqn:Htg.
  - destruct (taskgroups w !! tg) as [g|] eqn:Hg.
    + assert (_make_aci current aciname kw w
              = ((build_aci current aciname kw (group_dn g) w).1, w)) as Hrun
        by (by rewrite _make_aci_run, resolve_taskgroup_run, Htg, Hg).
      rewrite !Hrun. simpl. rewrite Hrun. split_and!; try done. by left.
    + set (w1 := with_taskgroup_entry tg aciname w).
      assert (_make_aci current aciname kw w
              = ((build_aci current aciname kw (taskgroup_dn tg) w1).1, w1))
        as Hrun
        by (by rewrite _make_aci_run, resolve_taskgroup_run, Htg, Hg).
      assert (_make_aci current aciname kw w1
              = ((build_aci current aciname kw (taskgroup_dn tg) w1).1, w1))
        as Hagain.
      { rewrite _make_aci_run, resolve_taskgroup_run, Htg.
        subst w1. unfold with_taskgroup_entry. simpl.
        by rewrite lookup_insert_eq. }
      rewrite !Hrun. simpl. rewrite Hagain. split_and!; try done.
      intros cn. destruct (decide (tg = cn)) as [<-|Hne].
      * right. by rewrite lookup_insert_eq.
      * left. by rewrite lookup_insert_ne.
  - assert (_make_aci current aciname kw w = (Raise (KeyError "taskgroup"), w))
      as Hrun by (by rewrite _make_aci_run, resolve_taskgroup_run, Htg).
    rewrite !Hrun. simpl. rewrite Hrun. split_and!; try done. by left.
Qed.

Lemma aci2_create_taskgroups aciname kw w :
  taskgroups (aci2_create aciname kw w).2
  = taskgroups (_make_aci None aciname kw w).2.
Proof.
  rewrite aci2_create_run.
  destruct (_make_aci None aciname kw w) as [[newaci|e] w1]; simpl; [|done].
  destruct (existsb _ _); [done|].
  by destruct (base_entry w1 !! "acis").
Qed.

Lemma _make_aci_taskgroups current aciname kw w tg :
  kw_taskgroup kw = Some tg →
  taskgroups (_make_aci current aciname kw w).2
  = match taskgroups w !! tg with
    | Some _ => taskgroups w
    | None => <[tg := mk_group (taskgroup_dn tg) aciname]> (taskgroups w)
    end.
Proof.
  intros Htg. rewrite _make_aci_run, resolve_taskgroup_run, Htg.
  by destruct (taskgroups w !! tg).
Qed.

(** X7: create adds the missing task-group before anything can fail:
    whatever create then returns or raises (NotFound for a memberof or
    targetgroup, DuplicateEntry, KeyError), the task-group is in the
    directory it leaves. *)
Theorem aci2_create_keeps_new_taskgroup (aciname : string) kw w (tg : string) :
  kw_taskgroup kw = Some tg →
  taskgroups w !! tg = None →
  taskgroups (aci2_create aciname kw w).2
  = <[tg := mk_group (taskgroup_dn tg) aciname]> (taskgroups w).
Proof.
  intros Htg Habsent.
  by rewrite aci2_create_taskgroups, (_make_aci_taskgroups _ _ _ _ tg), Habsent.
Qed.

(** X8: when create refuses a duplicate.  Create raises DuplicateEntry
    exactly when the builder returns a candidate and some decoded ACI of
    the base entry [isequal]s it; the builder itself never raises
    DuplicateEntry, and a refused create leaves the base entry as it
    was. *)
Theorem aci2_create_DuplicateEntry_iff (aciname : string) kw w :
  ((aci2_create aciname kw w).1 = Raise DuplicateEntry
   ↔ ∃ newaci, (_make_aci None aciname kw w).1 = Ok newaci
               ∧ Exists (λ a, isequal a (ArgACI newaci) = true)
                   (stored_acis w))
  ∧ ((aci2_create aciname kw w).1 = Raise DuplicateEntry →
     base_entry (aci2_create aciname kw w).2 = base_entry w).
Proof.
  split.
  - rewrite aci2_create_outcome.
    destruct (_make_aci None aciname kw w).1 as [newaci|e] eqn:Hmake.
    + destruct (existsb _ (stored_acis w)) eqn:Hex.
      * split; [intros _|done]. exists newaci. split; [done|].
        apply Exists_exists. apply existsb_exists in Hex as (a & Ha & Heq).
        exists a. by rewrite list_elem_of_In.
      * assert (¬ Exists (λ a, isequal a (ArgACI newaci) = true)
                  (stored_acis w)) as Hnone.
        { intros (a & Ha & Heq)%Exists_exists.
          apply not_true_iff_false in Hex. apply Hex, existsb_exists.
          exists a. by rewrite <-list_elem_of_In. }
        split.
        -- by destruct (base_entry w !! "acis").
        -- by intros (b & [= <-] & Hb).
    + split.
      * intros [= ->]. by apply _make_aci_exceptions in Hmake as [|[]].
      * by intros (b & [=] & _).
  - rewrite aci2_create_run.
    pose proof (_make_aci_base_entry None aciname kw w) as [Hbase _].
    destruct (_make_aci None aciname kw w) as [[newaci|e] w1];
      simpl in *; [|done].
    destruct (existsb _ (stored_acis w1)); [done|].
    by destruct (base_entry w1 !! "acis").
Qed.

End Behaviour.

(** ** The target of a built ACI *)

Section BuilderTarget.

Context {X : Type} `{!ACIClass X} `{!Env}.

Lemma startswith_app (p s : string) : PyStr.startswith p (p +:+ s) = true.
Proof.
  induction p as [|c p IH]; simpl; [done|].
  by rewrite bool_decide_eq_true_2, IH.
Qed.

Lemma subtree_target_prefixed (s : string) :
  PyStr.startswith "ldap:///" (subtree_target s) = true.
Proof.
  unfold subtree_target.
  destruct (PyStr.startswith "ldap:///" s) eqn:Hs; [done|].
  apply (startswith_app "ldap:///").
Qed.

Lemma build_aci_target (aciname : string) kw (dn : string) w (a : ACI X) :
  (build_aci None aciname kw dn w).1 = Ok a →
  match kw_subtree kw, kw_targetgroup kw, kw_type kw with
  | Some s, _, _ => ∃ a', a = set_target (subtree_target s) a'
  | None, Some g, _ =>
      ∃ a' grp, groups w !! g = Some grp
                ∧ a = set_target ("ldap:///" +:+ group_dn grp) a'
  | None, None, Some t => ∃ a' uri, _type_map t = Ok uri ∧ a = set_target uri a'
  | None, None, None => True
  end.
Proof.
  unfold build_aci, mbind, M_bind, lift, mret, M_ret, group2_show,
    lookup_group, ACI_init, subscript.
  destruct (kw_permissions kw); [|done].
  destruct (kw_memberof kw) as [m|]; cbv beta iota zeta;
    [destruct (groups w !! m) as [mgrp|]; cbv beta iota zeta; [|done]|];
    (destruct (kw_type kw) as [t|]; cbv beta iota zeta;
     [destruct (_type_map t) as [uri|] eqn:Huri; cbv beta iota zeta; [|done]|]);
    (destruct (kw_targetgroup kw) as [tgt|]; cbv beta iota zeta;
     [destruct (groups w !! tgt) as [grp|] eqn:Hgrp; cbv beta iota zeta;
      [|done]|]);
    destruct (kw_subtree kw) as [s|]; cbv beta iota zeta;
    intros [= <-]; eauto.
Qed.

(** X9: which qualifier decides the target of a built ACI.  The last
    [set_target] of a successful build is the one of subtree when subtree
    is supplied, else the one of targetgroup (on the DN the group resolved
    to), else the one of type; a subtree is given the prefix [ldap:///]
    exactly when it does not have it, so the target of a subtree always
    has the prefix and prefixing twice changes nothing. *)
Theorem _make_aci_target_precedence (aciname : string) kw w (a : ACI X) :
  (_make_aci None aciname kw w).1 = Ok a →
  match kw_subtree kw, kw_targetgroup kw, kw_type kw with
  | Some s, _, _ => ∃ a', a = set_target (subtree_target s) a'
  | None, Some g, _ =>
      ∃ a' grp, groups w !! g = Some grp
                ∧ a = set_target ("ldap:///" +:+ group_dn grp) a'
  | None, None, Some t => ∃ a' uri, _type_map t = Ok uri ∧ a = set_target uri a'
  | None, None, None => True
  end
  ∧ (∀ s, PyStr.startswith "ldap:///" (subtree_target s) = true
          ∧ subtree_target (subtree_target s) = subtree_target s
          ∧ (PyStr.startswith "ldap:///" s = true → subtree_target s = s)).
Proof.
  intros Hbuild. split.
  - rewrite _make_aci_run, resolve_taskgroup_run in Hbuild.
    destruct (kw_taskgroup kw) as [tg|]; [|done].
    destruct (taskgroups w !! tg); simpl in Hbuild;
      by apply build_aci_target in Hbuild.
  - intros s. split_and!.
    + apply subtree_target_prefixed.
    + unfold subtree_target at 1. by rewrite subtree_target_prefixed.
    + intros Hs. unfold subtree_target. by rewrite Hs.
Qed.

End BuilderTarget.

(** ** Modify and its merged request *)

Section Modify.

Context {X : Type} `{!ACIClass X} `{!Env}.

Lemma setdefault_is_Some {A} (o : option A) (v : A) : is_Some (setdefault o v).
Proof. destruct o; simpl; eauto. Qed.

Lemma setdefault_keeps {A} (o : option A) (v x : A) :
  o = Some x → setdefault o v = Some x.
Proof. by intros ->. Qed.

(** X10: the request that modify hands to create.  When the defaults
    succeed, the merged request has a name, a task-group, permissions and
    attrs, at least one of type, targetgroup and subtree, and at least one
    of memberof and filter; every field that was supplied keeps its value,
    and type, memberof and targetgroup are never filled in. *)
Theorem merge_kw_complete (aci : ACI X) kw kw' :
  merge_kw aci kw = Ok kw' →
  (is_Some (kw_aciname kw') ∧ is_Some (kw_taskgroup kw')
   ∧ is_Some (kw_permissions kw') ∧ is_Some (kw_attrs kw'))
  ∧ (is_Some (kw_type kw') ∨ is_Some (kw_targetgroup kw')
     ∨ is_Some (kw_subtree kw'))
  ∧ (is_Some (kw_memberof kw') ∨ is_Some (kw_filter kw'))
  ∧ ((∀ v, kw_aciname kw = Some v → kw_aciname kw' = Some v)
     ∧ (∀ v, kw_taskgroup kw = Some v → kw_taskgroup kw' = Some v)
     ∧ (∀ v, kw_permissions kw = Some v → kw_permissions kw' = Some v)
     ∧ (∀ v, kw_attrs kw = Some v → kw_attrs kw' = Some v)
     ∧ (∀ v, kw_subtree kw = Some v → kw_subtree kw' = Some v)
     ∧ (∀ v, kw_filter kw = Some v → kw_filter kw' = Some v))
  ∧ (kw_type kw' = kw_type kw ∧ kw_memberof kw' = kw_memberof kw
     ∧ kw_targetgroup kw' = kw_targetgroup kw).
Proof.
  unfold merge_kw, subscript.
  destruct (target_targetattr (target aci)); simpl; [|done].
  destruct (kw_type kw), (kw_targetgroup kw), (kw_subtree kw),
    (target_target (target aci)); simpl; try done;
    destruct (kw_memberof kw), (kw_filter kw),
      (target_targetfilter (target aci)); simpl; try done;
    intros [= <-]; simpl;
    split_and!;
    first [ by eauto using setdefault_is_Some, setdefault_keeps
          | by intros v [=]
          | by (intros v [= ->]) ].
Qed.

End Modify.

(** ** Delete under a contract for [isequal] *)

Section DeleteContract.

Context {X : Type} `{!ACIClass X} `{!Env}.

Lemma _convert_strings_to_acis_origin (l : list string) (a : ACI X) :
  a ∈ _convert_strings_to_acis l → ∃ s, s ∈ l ∧ aci_parse s = Some a.
Proof.
  induction l as [|s l IH]; simpl; [by intros ?%elem_of_nil|].
  destruct (aci_parse s) as [b|] eqn:Hs.
  - intros [->|Hin]%elem_of_cons.
    + exists s. split; [by left|done].
    + destruct (IH Hin) as (s' & Hs' & Hp). exists s'. split; [by right|done].
  - intros Hin. destruct (IH Hin) as (s' & Hs' & Hp).
    exists s'. split; [by right|done].
Qed.

Lemma remove_first_split {A} (P : A → bool) (l1 l2 : list A) (x : A) :
  Forall (λ y, P y = false) l1 → P x = true →
  remove_first P (l1 ++ x :: l2) = l1 ++ l2.
Proof.
  intros Hl1 Hx. induction Hl1 as [|y l1 Hy _ IH]; simpl.
  - by rewrite Hx.
  - by rewrite Hy, IH.
Qed.

(** X13: delete removes one ACI of the given name and nothing else, when
    [isequal] on raw strings keeps to its contract: a string equal to an
    ACI decodes to an ACI of the same name up to letter case, and the
    string an ACI was decoded from is equal to it.  Then for a name that
    is found, delete returns True, one decoded ACI of that name is gone
    from the directory, and all the other decoded ACIs are there in the
    same order. *)
Theorem aci2_delete_removes_one_of_the_name (aciname : string) w (aci : ACI X) :
  (∀ (a : ACI X) (s : string),
     isequal a (ArgStr s) = true →
     ∃ b, aci_parse s = Some b ∧ PyStr.lower (name b) = PyStr.lower (name a)) →
  (∀ (a : ACI X) (s : string),
     aci_parse s = Some a → isequal a (ArgStr s) = true) →
  _find_aci_by_name (stored_acis w) aciname = Ok aci →
  (aci2_delete aciname w).1 = Ok true
  ∧ ∃ before b after,
      stored_acis w = before ++ b :: after
      ∧ PyStr.lower (name b) = PyStr.lower aciname
      ∧ stored_acis (aci2_delete aciname w).2 = before ++ after.
Proof.
  intros Hsound Hcomplete Hfind.
  rewrite aci2_delete_outcome, Hfind. simpl. split; [done|].
  rewrite stored_acis_with_aci_values.
  pose proof (_find_aci_by_name_Ok _ _ _ Hfind) as (p & q & Hsplit & Hname & _).
  assert (aci ∈ stored_acis w) as Hin.
  { rewrite Hsplit. apply elem_of_app. right. by left. }
  apply _convert_strings_to_acis_origin in Hin as (s0 & Hs0 & Hparse0).
  destruct (first_equal_entry aci (entry_values w))
    as [Hnone|(l1 & s & l2 & Hl & Hl1 & Hs)].
  - rewrite Forall_forall in Hnone. specialize (Hnone s0 Hs0).
    rewrite (Hcomplete aci s0 Hparse0) in Hnone. done.
  - destruct (Hsound aci s Hs) as (b & Hb & Hbname).
    exists (_convert_strings_to_acis l1), b, (_convert_strings_to_acis l2).
    unfold stored_acis. rewrite Hl.
    rewrite (remove_first_split _ l1 l2 s Hl1 Hs).
    rewrite !_convert_strings_to_acis_app. simpl. rewrite Hb.
    split_and!; [done|congruence|done].
Qed.

End DeleteContract.

(** ** More on the permission normaliser *)

Section NormalizeMore.

Lemma split_not_nil (c : ascii) (s : string) : PyStr.split c s ≠ [].
Proof.
  destruct s as [|a s]; simpl; [done|].
  case_decide; [done|]. by destruct (PyStr.split c s).
Qed.

Lemma split_app_sep_any (c : ascii) (s1 s2 : string) :
  PyStr.split c (s1 +:+ String c s2) = PyStr.split c s1 ++ PyStr.split c s2.
Proof.
  induction s1 as [|a s1 IH]; simpl.
  - by rewrite decide_True.
  - case_decide; [by rewrite IH|].
    rewrite IH. pose proof (split_not_nil c s1) as Hne.
    by destruct (PyStr.split c s1).
Qed.

Lemma normalize_tokens_app (l1 l2 : list string) :
  normalize_tokens (l1 ++ l2)
  = normalize_tokens l1
    ++ filter (λ p, p ∉ normalize_tokens l1) (normalize_tokens l2).
Proof.
  unfold normalize_tokens at 1. rewrite fold_left_app.
  fold (normalize_tokens l1). rewrite normalize_loop_spec.
  by rewrite (normalize_tokens_spec l2).
Qed.

(** X14: normalising two texts joined by a comma.  The tokens of the
    first text come first, as normalising it alone gives them, followed by
    the tokens that normalising the second text alone gives and that the
    first did not have. *)
Theorem normalize_permissions_concat (s1 s2 : string) :
  normalize_tokens (PyStr.split PyStr.comma (s1 +:+ "," +:+ s2))
  = normalize_tokens (PyStr.split PyStr.comma s1)
    ++ filter (λ p, p ∉ normalize_tokens (PyStr.split PyStr.comma s1))
         (normalize_tokens (PyStr.split PyStr.comma s2))
  ∧ _normalize_permissions (s1 +:+ "," +:+ s2)
    = PyStr.join ","
        (normalize_tokens (PyStr.split PyStr.comma s1)
         ++ filter (λ p, p ∉ normalize_tokens (PyStr.split PyStr.comma s1))
              (normalize_tokens (PyStr.split PyStr.comma s2))).
Proof.
  assert (PyStr.split PyStr.comma (s1 +:+ "," +:+ s2)
          = PyStr.split PyStr.comma s1 ++ PyStr.split PyStr.comma s2) as Hsplit
    by apply (split_app_sep_any PyStr.comma).
  split.
  - by rewrite Hsplit, normalize_tokens_app.
  - unfold _normalize_permissions. by rewrite Hsplit, normalize_tokens_app.
Qed.

(** X15: the order of the tokens of a request does not matter beyond
    order: two token lists that are permutations of each other normalise
    to permutations of each other, hence to the same sorted list, the one
    the permissions criterion of the search compares. *)
Theorem normalize_tokens_Permutation (l1 l2 : list string) :
  l1 ≡ₚ l2 →
  normalize_tokens l1 ≡ₚ normalize_tokens l2
  ∧ sorted (normalize_tokens l1) = sorted (normalize_tokens l2).
Proof.
  intros Hperm.
  assert (normalize_tokens l1 ≡ₚ normalize_tokens l2) as Hnorm.
  { apply NoDup_Permutation; [apply normalize_tokens_NoDup..|].
    intros p. rewrite !normalize_tokens_elem_of.
    split; intros (Hv & t & Ht & Hc); (split; [done|]); exists t;
      (split; [|done]); [by rewrite <- Hperm|by rewrite Hperm]. }
  split; [done|]. by apply sorted_Permutation.
Qed.

End NormalizeMore.

(** ** The further properties at the examples' directory *)

Section MoreInstances.

Import Fixture.

Lemma aci2_show_result_is_found_instance :
  aci2_show "A1" dir = (Ok (fx_str aci_rw), dir)
  ∧ ∃ results, aci2_find "A1" no_kw dir = (Ok results, dir)
               ∧ fx_str aci_rw ∈ results.
Proof.
  assert (aci2_show "A1" dir = (Ok (fx_str aci_rw), dir)) as Hshow
    by (vm_compute; reflexivity).
  split; [exact Hshow|].
  exact (aci2_show_result_is_found "A1" dir (fx_str aci_rw) dir Hshow).
Defined.

Lemma lookup_by_name_ignores_case_instance :
  PyStr.lower "Edit Title" = PyStr.lower "EDIT TITLE"
  ∧ aci2_show "Edit Title" dir = aci2_show "EDIT TITLE" dir
  ∧ aci2_delete "Edit Title" dir = aci2_delete "EDIT TITLE" dir.
Proof.
  assert (PyStr.lower "Edit Title" = PyStr.lower "EDIT TITLE") as Hlower
    by reflexivity.
  split; [exact Hlower|].
  destruct (lookup_by_name_ignores_case "Edit Title" "EDIT TITLE" dir Hlower)
    as (Hshow & Hdelete & _).
  split; [exact Hshow|exact Hdelete].
Defined.

(** The task-group admins is missing and the group nogroup does not
    resolve: create raises NotFound and admins is there afterwards. *)
Lemma aci2_create_keeps_new_taskgroup_instance :
  taskgroups dir !! "admins" = None
  ∧ (aci2_create "a9" (with_memberof (Some "nogroup") (grant "admins" ["read"]))
       dir).1 = Raise NotFound
  ∧ taskgroups
      (aci2_create "a9" (with_memberof (Some "nogroup") (grant "admins" ["read"]))
         dir).2
    = <["admins" := mk_group (taskgroup_dn "admins") "a9"]> (taskgroups dir).
Proof.
  assert (taskgroups dir !! "admins" = None) as Habsent
    by (vm_compute; reflexivity).
  split; [exact Habsent|]. split; [vm_compute; reflexivity|].
  exact (aci2_create_keeps_new_taskgroup
           "a9" (with_memberof (Some "nogroup") (grant "admins" ["read"]))
           dir "admins" eq_refl Habsent).
Defined.

Lemma _make_aci_target_precedence_instance :
  ∃ a a', (_make_aci None "a9" subtree_request dir).1 = Ok a
          ∧ a = set_target "ldap:///ou=people,dc=example" a'.
Proof.
  assert (∃ a, (_make_aci None "a9" subtree_request dir).1 = Ok a)
    as [a Hbuild] by (vm_compute; eexists; reflexivity).
  destruct (_make_aci_target_precedence "a9" subtree_request dir a Hbuild)
    as [[a' Ha] _].
  exists a, a'. split; [exact Hbuild|exact Ha].
Defined.

Lemma merge_kw_complete_instance :
  ∃ kw', merge_kw aci_full (only_permissions ["read"]) = Ok kw'
         ∧ kw_permissions kw' = Some ["read"]
         ∧ is_Some (kw_taskgroup kw').
Proof.
  assert (∃ kw', merge_kw aci_full (only_permissions ["read"]) = Ok kw')
    as [kw' Hmerge] by (vm_compute; eexists; reflexivity).
  exists kw'. split; [exact Hmerge|].
  destruct (merge_kw_complete aci_full (only_permissions ["read"]) kw' Hmerge)
    as ((_ & Htg & _) & _ & _ & (_ & _ & Hperm & _) & _).
  split; [exact (Hperm ["read"] eq_refl)|exact Htg].
Defined.

(** The examples' class keeps the contract of [isequal] on raw strings. *)
Lemma fx_isequal_sound (a : ACI unit) (s : string) :
  isequal a (ArgStr s) = true →
  ∃ b, aci_parse s = Some b ∧ PyStr.lower (name b) = PyStr.lower (name a).
Proof.
  simpl. unfold fx_isequal. destruct (fx_parse s) as [b|]; [|done].
  intros Hsame. exists b. split; [done|].
  unfold same_rule in Hsame.
  repeat (apply andb_prop in Hsame as [Hsame _]).
  by apply bool_decide_eq_true_1 in Hsame.
Qed.

Lemma fx_isequal_complete (a : ACI unit) (s : string) :
  aci_parse s = Some a → isequal a (ArgStr s) = true.
Proof.
  simpl. unfold fx_isequal. intros ->. unfold same_rule.
  by rewrite !bool_decide_eq_true_2.
Qed.

Lemma aci2_delete_removes_one_of_the_name_instance :
  _find_aci_by_name (stored_acis dir) "A2" = Ok aci_rwa
  ∧ (aci2_delete "A2" dir).1 = Ok true
  ∧ ∃ before b after,
      stored_acis dir = before ++ b :: after
      ∧ PyStr.lower (name b) = PyStr.lower "A2"
      ∧ stored_acis (aci2_delete "A2" dir).2 = before ++ after.
Proof.
  assert (_find_aci_by_name (stored_acis dir) "A2" = Ok aci_rwa) as Hfind
    by (vm_compute; reflexivity).
  split; [exact Hfind|].
  exact (aci2_delete_removes_one_of_the_name
           "A2" dir aci_rwa fx_isequal_sound fx_isequal_complete Hfind).
Defined.

Lemma normalize_tokens_Permutation_instance :
  ["write"; " READ"; "bogus"] ≡ₚ [" READ"; "write"; "bogus"]
  ∧ sorted (normalize_tokens ["write"; " READ"; "bogus"])
    = sorted (normalize_tokens [" READ"; "write"; "bogus"]).
Proof.
  assert (["write"; " READ"; "bogus"] ≡ₚ [" READ"; "write"; "bogus"]) as Hperm
    by apply perm_swap.
  split; [exact Hperm|].
  exact (proj2 (normalize_tokens_Permutation _ _ Hperm)).
Defined.

Lemma aci2_find_narrows_instance :
  (aci2_find "a" (only_permissions ["write"; "read"]) dir).1
  = Ok [fx_str aci_rw]
  ∧ ∃ every, aci2_find "a" no_kw dir = (Ok every, dir)
             ∧ [fx_str aci_rw] `sublist_of` every.
Proof.
  assert ((aci2_find "a" (only_permissions ["write"; "read"]) dir).1
          = Ok [fx_str aci_rw]) as Hfind by (vm_compute; reflexivity).
  split; [exact Hfind|].
  destruct (aci2_find_narrows
              "a" (only_permissions ["write"; "read"]) dir _ Hfind)
    as (every & Hevery & Hsub & _).
  exists every. split; [exact Hevery|exact Hsub].
Defined.

End MoreInstances.
